(** * ProfileService (Trail App): error classification, authentication
      and connection handling of [src/app/main.py]

    The development embeds the Python module shallowly:

    - Python strings are [string]s, read as the UTF-8 bytes of the text.
      [Str.lower] is [str.lower] on the letters [A]..[Z] and leaves every
      other byte as it is: it is [str.lower] itself on ASCII text and on text
      whose other characters have no separate lowercase form.
    - A request runs in a writer/exception monad [M]: a computation yields
      its Python outcome (a returned value or a raised exception) together
      with the chronological list of calls it made to the outside world
      (the authentication endpoint, pyodbc and [print]). Calls of [logger]
      are not recorded.
    - What the outside world answers to each call is a field of the record
      [world]; every library call may complete or raise. *)

From Stdlib Require Import String Ascii List Bool Arith ZArith Lia.
Import ListNotations.
Local Open Scope string_scope.
Local Open Scope list_scope.

(** ** Python strings *)

Module Str.

(** [c.lower()] for one ASCII character. *)
Definition lower_char (c : ascii) : ascii :=
  let n := nat_of_ascii c in
  if Nat.leb 65 n && Nat.leb n 90 then ascii_of_nat (n + 32) else c.

(** [s.lower()] on the ASCII letters of [s]; bytes of other characters are
    kept. *)
Fixpoint lower (s : string) : string :=
  match s with
  | EmptyString => EmptyString
  | String c t => String (lower_char c) (lower t)
  end.

(** [s.startswith(p)]. *)
Fixpoint startswith (p s : string) : bool :=
  match p, s with
  | EmptyString, _ => true
  | String _ _, EmptyString => false
  | String a p', String b s' => Ascii.eqb a b && startswith p' s'
  end.

(** [sub in s]: [sub] occurs in [s] as a contiguous substring. *)
Fixpoint contains (sub s : string) : bool :=
  startswith sub s ||
  match s with
  | EmptyString => false
  | String _ t => contains sub t
  end.

(** Two characters that differ at most in letter case. *)
Definition same_letter (a b : ascii) : Prop :=
  a = b \/ b = lower_char a \/ a = lower_char b.

(** Two strings that differ only in letter case. *)
Inductive case_variant : string -> string -> Prop :=
| cv_nil : case_variant EmptyString EmptyString
| cv_cons a b s t :
    same_letter a b -> case_variant s t ->
    case_variant (String a s) (String b t).


End Str.


(** ** Exceptions *)

(** [fastapi.status]. *)
Module status.
Definition HTTP_401_UNAUTHORIZED : nat := 401.
Definition HTTP_404_NOT_FOUND : nat := 404.
Definition HTTP_409_CONFLICT : nat := 409.
Definition HTTP_500_INTERNAL_SERVER_ERROR : nat := 500.
Definition HTTP_503_SERVICE_UNAVAILABLE : nat := 503.
End status.
Import status.

(** [fastapi.HTTPException(status_code, detail, headers)]. *)
Record HTTPException : Type := mkHTTPException {
  status_code : nat;
  detail : string;
  headers : list (string * string)
}.

(** Exceptions raised by library calls: [requests.RequestException]
    (with the name of the subclass), [pyodbc.Error] (with [str(e)]),
    [TypeError], and any other exception class. *)
Inductive lib_exn : Type :=
| RequestException (cls : string)
| PyodbcError (text : string)
| TypeError
| OtherError (cls : string).

(** Everything a request can raise: a library exception or an
    [HTTPException] built by the module itself. *)
Inductive exn : Type :=
| Lib (e : lib_exn)
| Http (e : HTTPException).

(** The answer of the outside world to one library call. *)
Inductive outcome (A : Type) : Type :=
| Completes (a : A)
| Fails (e : lib_exn).
Arguments Completes {A} a.
Arguments Fails {A} e.

(** ** Values exchanged with the outside world *)

(** A decoded JSON document; numbers keep their literal text. *)
#[local] Unset Elimination Schemes.
Inductive json : Type :=
| JNull
| JBool (b : bool)
| JNumber (lit : string)
| JString (s : string)
| JArray (items : list json)
| JObject (members : list (string * json)).
#[local] Set Elimination Schemes.

(** [requests.Response]: the status and what [response.json()] does. *)
Module Response.
Record t : Type := mk {
  status_code : nat;
  json : outcome json
}.
End Response.

(** Parameters bound to the [?] markers of a statement. *)
Inductive sql_value : Type :=
| SqlNull
| SqlInt (n : Z)
| SqlStr (s : string)
| SqlDate (iso : string).

Definition sql_opt_str (o : option string) : sql_value :=
  match o with Some s => SqlStr s | None => SqlNull end.
Definition sql_opt_date (o : option string) : sql_value :=
  match o with Some s => SqlDate s | None => SqlNull end.
Definition sql_opt_int (o : option Z) : sql_value :=
  match o with Some n => SqlInt n | None => SqlNull end.

(** Calls that leave the process, in the order they are made. A statement
    [EXEC CW2.P @A = ?, ...] is recorded by its procedure name and the
    parameters bound to it; [print(msg)] is recorded with the text it is
    given. *)
Inductive event : Type :=
| Ev_requests_post (email password : string)
| Ev_connect
| Ev_cursor
| Ev_execute (proc : string) (params : list sql_value)
| Ev_rollback
| Ev_fetchone
| Ev_cursor_close
| Ev_conn_close
| Ev_print (text : string).

(** What the outside world answers during one request. *)
Record world : Type := mkWorld {
  w_post : string -> string -> outcome Response.t;
  w_connect : outcome unit;
  w_cursor : outcome unit;
  w_execute : string -> list sql_value -> outcome unit;
  w_rollback : outcome unit;
  w_fetchone : outcome (option (list sql_value));
  w_description : option (list string);
  w_cursor_close : outcome unit;
  w_conn_close : outcome unit;
  w_print : string -> outcome unit
}.

(** ** The request monad *)

Inductive result (A : Type) : Type :=
| Returns (a : A)
| Raises (e : exn).
Arguments Returns {A} a.
Arguments Raises {A} e.

Definition M (A : Type) : Type := (result A * list event)%type.

Definition ret {A} (a : A) : M A := (Returns a, []).
Definition raise {A} (e : exn) : M A := (Raises e, []).

Definition bind {A B} (m : M A) (k : A -> M B) : M B :=
  match m with
  | (Returns a, t) => let (r, t') := k a in (r, t ++ t')
  | (Raises e, t) => (Raises e, t)
  end.

Declare Scope py_scope.
Delimit Scope py_scope with py.
Notation "x <- m ;; k" := (bind m (fun x => k))
  (at level 61, m at next level, right associativity) : py_scope.
Notation "m ;; k" := (bind m (fun _ => k))
  (at level 61, right associativity) : py_scope.
Local Open Scope py_scope.

(** One library call: it is recorded, then completes or raises. *)
Definition call {A} (ev : event) (o : outcome A) : M A :=
  (match o with Completes a => Returns a | Fails e => Raises (Lib e) end, [ev]).

(** A library call on a local object, not recorded. *)
Definition local {A} (o : outcome A) : M A :=
  match o with Completes a => ret a | Fails e => raise (Lib e) end.

(** [try: body  except C as e: handler e], where [sel] recognises the
    instances of [C]. *)
Definition try_except {A X} (body : M A) (sel : exn -> option X)
    (handler : X -> M A) : M A :=
  match body with
  | (Returns a, t) => (Returns a, t)
  | (Raises e, t) =>
      match sel e with
      | Some x => let (r, t') := handler x in (r, t ++ t')
      | None => (Raises e, t)
      end
  end.

(** [try: body  finally: fin]: [fin] always runs; an exception of [fin]
    replaces the outcome of [body]. *)
Definition try_finally {A} (body : M A) (fin : M unit) : M A :=
  let (r, t) := body in
  match fin with
  | (Returns _, t') => (r, t ++ t')
  | (Raises e, t') => (Raises e, t ++ t')
  end.

Definition is_RequestException (e : exn) : option string :=
  match e with Lib (RequestException cls) => Some cls | _ => None end.

Definition is_pyodbc_Error (e : exn) : option string :=
  match e with Lib (PyodbcError text) => Some text | _ => None end.

(** ** Authentication: [verify_credentials] *)

(** [fastapi.security.HTTPBasicCredentials]. *)
Record HTTPBasicCredentials : Type := mkCredentials {
  username : string;
  password : string
}.

(** The dict [{"email": ..., "authenticated": ...}] returned on success. *)
Record current_user : Type := mkUser {
  email : string;
  authenticated : bool
}.

(** [v == s] for a decoded JSON value [v] and a Python string [s]. *)
Definition json_eq_str (v : json) (s : string) : bool :=
  match v with
  | JString x => String.eqb x s
  | _ => false
  end.

(** The two nested tests of lines 120-121:
    [isinstance(result, list) and len(result) >= 2], then
    [result[0] == "Verified" and result[1] == "True"]. *)
Definition verified (result : json) : bool :=
  match result with
  | JArray items =>
      if Nat.leb 2 (List.length items) then
        json_eq_str (nth 0 items JNull) "Verified"
        && json_eq_str (nth 1 items JNull) "True"
      else false
  | _ => false
  end.

Definition invalid_credentials : HTTPException :=
  mkHTTPException HTTP_401_UNAUTHORIZED "Invalid credentials"
    [("WWW-Authenticate", "Basic")].

Definition authentication_failed : HTTPException :=
  mkHTTPException HTTP_401_UNAUTHORIZED "Authentication failed"
    [("WWW-Authenticate", "Basic")].

Definition auth_service_unavailable : HTTPException :=
  mkHTTPException HTTP_503_SERVICE_UNAVAILABLE
    "Authentication service unavailable" [].

Definition verify_credentials (w : world) (credentials : HTTPBasicCredentials)
  : M current_user :=
  let email := username credentials in
  let password := password credentials in
  try_except
    (response <- call (Ev_requests_post email password) (w_post w email password) ;;
     if Nat.eqb (Response.status_code response) 200 then
       result <- local (Response.json response) ;;
       if verified result then ret (mkUser email true)
       else raise (Http invalid_credentials)
     else raise (Http authentication_failed))
    is_RequestException
    (fun _ => raise (Http auth_service_unavailable)).

(** ** The error classifier: [validation_checking] *)

Definition http (code : nat) (text : string) : exn :=
  Http (mkHTTPException code text []).

Definition validation_checking (msg : string) : M unit :=
  if Str.contains "user not found" msg then
    raise (http HTTP_404_NOT_FOUND "User not found")
  else if Str.contains "new activity not found" msg then
    raise (http HTTP_404_NOT_FOUND "New Activity not found")
  else if Str.contains "old activity not found" msg then
    raise (http HTTP_404_NOT_FOUND "Old Activity not found for this user")
  else if Str.contains "activity not found" msg then
    raise (http HTTP_404_NOT_FOUND "Activity not found")
  else if Str.contains "activity already exists for this user" msg then
    raise (http HTTP_409_CONFLICT "Activity already exists for this user.")
  else if Str.contains "old activity not found for this user" msg then
    raise (http HTTP_409_CONFLICT "Old activity not found for this user.")
  else if Str.contains "email already exists" msg then
    raise (http HTTP_409_CONFLICT "Email already exists.")
  else if Str.contains "username already exists" msg then
    raise (http HTTP_409_CONFLICT "Username already exists")
  else if Str.contains "date_of_birth" msg then
    raise (http HTTP_409_CONFLICT
             "Invalid date of birth, must be at least 13 years old.")
  else if Str.contains "phone_number" msg then
    raise (http HTTP_409_CONFLICT
             "Invalid phone number format, the number must start with +.")
  else
    raise (http HTTP_500_INTERNAL_SERVER_ERROR "Internal server error").

(** The ten substrings tested by [validation_checking], in source order. *)
Definition classifier_substrings : list string :=
  [ "user not found"; "new activity not found"; "old activity not found";
    "activity not found"; "activity already exists for this user";
    "old activity not found for this user"; "email already exists";
    "username already exists"; "date_of_birth"; "phone_number" ].

(** The status/message table of the error taxonomy. *)
Definition error_table : list (nat * string) :=
  [ (404, "User not found");
    (404, "New Activity not found");
    (404, "Old Activity not found for this user");
    (404, "Activity not found");
    (409, "Activity already exists for this user.");
    (409, "Old activity not found for this user.");
    (409, "Email already exists.");
    (409, "Username already exists");
    (409, "Invalid date of birth, must be at least 13 years old.");
    (409, "Invalid phone number format, the number must start with +.");
    (500, "Internal server error") ].

(** ** Request bodies *)

Module UserCreate.
Record t : Type := mk {
  username : string;
  email : option string;
  phone_number : option string;
  location : option string;
  date_of_birth : option string
}.
End UserCreate.

Module UpdateUser.
Record t : Type := mk {
  username : option string;
  email : option string;
  phone_number : option string;
  location : option string;
  date_of_birth : option string
}.
End UpdateUser.

Module Activity_Request.
Record t : Type := mk { activity_ID : Z }.
End Activity_Request.

Module UpdateUserPreferences.
Record t : Type := mk {
  new_activity_ID : option Z;
  old_activity_ID : option Z
}.
End UpdateUserPreferences.

(** What a handler returns: [{"message": m}], the row mapping of
    [read_user], or [None] when control falls off the end. *)
Inductive pyvalue : Type :=
| PyNone
| Message (m : string)
| UserData (d : list (string * sql_value)).

(** [d[k] = v] on an insertion-ordered dict. *)
Fixpoint dict_set (d : list (string * sql_value)) (k : string) (v : sql_value)
  : list (string * sql_value) :=
  match d with
  | [] => [(k, v)]
  | (k', v') :: d' =>
      if String.eqb k' k then (k', v) :: d' else (k', v') :: dict_set d' k v
  end.

(** [dict(pairs)]. *)
Definition dict (pairs : list (string * sql_value)) : list (string * sql_value) :=
  fold_left (fun d kv => dict_set d (fst kv) (snd kv)) pairs [].

(** ** Database access *)

Definition database_connection_failed : exn :=
  http HTTP_503_SERVICE_UNAVAILABLE "Database connection failed".

Definition get_db_connection (w : world) : M unit :=
  try_except
    (call Ev_connect (w_connect w))
    is_pyodbc_Error
    (fun _ => raise database_connection_failed).

(** The [finally] block shared by every handler. *)
Definition release (w : world) : M unit :=
  call Ev_cursor_close (w_cursor_close w) ;;
  call Ev_conn_close (w_conn_close w).

Definition execute (w : world) (proc : string) (params : list sql_value) : M unit :=
  call (Ev_execute proc params) (w_execute w proc params).

(** ** Endpoints *)

Definition create_user (w : world) (user : UserCreate.t) (cu : current_user)
  : M pyvalue :=
  get_db_connection w ;;
  call Ev_cursor (w_cursor w) ;;
  try_finally
    (try_except
       (execute w "CW2.Create_User"
          [ SqlStr (UserCreate.username user);
            sql_opt_str (UserCreate.email user);
            sql_opt_str (UserCreate.phone_number user);
            sql_opt_str (UserCreate.location user);
            sql_opt_date (UserCreate.date_of_birth user) ] ;;
        ret (Message "User created successfully"))
       is_pyodbc_Error
       (fun e =>
          call Ev_rollback (w_rollback w) ;;
          let msg := Str.lower e in
          validation_checking msg ;;
          ret PyNone))
    (release w).

Definition read_user (w : world) (user_id : Z) (cu : current_user)
  : M pyvalue :=
  get_db_connection w ;;
  call Ev_cursor (w_cursor w) ;;
  try_finally
    (try_except
       (execute w "CW2.Read_User" [ SqlInt user_id ] ;;
        row <- call Ev_fetchone (w_fetchone w) ;;
        columns <- match w_description w with
                   | Some cols => ret cols
                   | None => raise (Lib TypeError)
                   end ;;
        user_data <- match row with
                     | Some values => ret (dict (combine columns values))
                     | None => raise (Lib TypeError)
                     end ;;
        ret (UserData user_data))
       is_pyodbc_Error
       (fun e =>
          let msg := Str.lower e in
          if Str.contains "user not found" msg then
            raise (http HTTP_404_NOT_FOUND "User not found")
          else
            raise (http HTTP_500_INTERNAL_SERVER_ERROR
                     "Failed to retrieve user profile")))
    (release w).

Definition update_user (w : world) (user_id : Z) (user : UpdateUser.t)
    (cu : current_user) : M pyvalue :=
  get_db_connection w ;;
  call Ev_cursor (w_cursor w) ;;
  try_finally
    (try_except
       (execute w "CW2.Update_User"
          [ SqlInt user_id;
            sql_opt_str (UpdateUser.username user);
            sql_opt_str (UpdateUser.email user);
            sql_opt_str (UpdateUser.phone_number user);
            sql_opt_str (UpdateUser.location user);
            sql_opt_date (UpdateUser.date_of_birth user) ] ;;
        ret (Message "User updated successfully"))
       is_pyodbc_Error
       (fun e =>
          let msg := Str.lower e in
          call (Ev_print msg) (w_print w msg) ;;
          validation_checking msg ;;
          ret PyNone))
    (release w).

Definition create_user_preferences (w : world) (user_id : Z)
    (body : Activity_Request.t) (cu : current_user) : M pyvalue :=
  get_db_connection w ;;
  call Ev_cursor (w_cursor w) ;;
  try_finally
    (try_except
       (execute w "CW2.Add_User_Activity"
          [ SqlInt user_id; SqlInt (Activity_Request.activity_ID body) ] ;;
        ret (Message "User Preferences created successfully"))
       is_pyodbc_Error
       (fun e =>
          let msg := Str.lower e in
          call (Ev_print msg) (w_print w msg) ;;
          validation_checking msg ;;
          ret PyNone))
    (release w).

Definition update_user_preferences (w : world) (user_id : Z)
    (user : UpdateUserPreferences.t) (cu : current_user) : M pyvalue :=
  get_db_connection w ;;
  call Ev_cursor (w_cursor w) ;;
  try_finally
    (try_except
       (execute w "CW2.Update_User_Activity"
          [ SqlInt user_id;
            sql_opt_int (UpdateUserPreferences.new_activity_ID user);
            sql_opt_int (UpdateUserPreferences.old_activity_ID user) ] ;;
        ret (Message "User Preferences updated successfully"))
       is_pyodbc_Error
       (fun e =>
          let msg := Str.lower e in
          call (Ev_print msg) (w_print w msg) ;;
          validation_checking msg ;;
          ret PyNone))
    (release w).

Definition delete_user (w : world) (user_id : Z) (cu : current_user)
  : M pyvalue :=
  get_db_connection w ;;
  call Ev_cursor (w_cursor w) ;;
  try_finally
    (try_except
       (execute w "CW2.Delete_User" [ SqlInt user_id ] ;;
        ret (Message "User deleted successfully"))
       is_pyodbc_Error
       (fun e =>
          let msg := Str.lower e in
          if Str.contains "user not found" msg then
            raise (http HTTP_404_NOT_FOUND "User not found")
          else
            raise (http HTTP_500_INTERNAL_SERVER_ERROR
                     "Failed to delete user profile")))
    (release w).

(** ** Routing *)

(** A validated request to one of the six routes. *)
Inductive request : Type :=
| POST_profiles (user : UserCreate.t)
| GET_profile (user_id : Z)
| PUT_profile (user_id : Z) (user : UpdateUser.t)
| POST_profile_activity (user_id : Z) (body : Activity_Request.t)
| POST_profile (user_id : Z) (user : UpdateUserPreferences.t)
| DELETE_profile (user_id : Z).

Definition handler (w : world) (rq : request) (cu : current_user) : M pyvalue :=
  match rq with
  | POST_profiles user => create_user w user cu
  | GET_profile user_id => read_user w user_id cu
  | PUT_profile user_id user => update_user w user_id user cu
  | POST_profile_activity user_id body => create_user_preferences w user_id body cu
  | POST_profile user_id user => update_user_preferences w user_id user cu
  | DELETE_profile user_id => delete_user w user_id cu
  end.

(** [current_user: dict = Depends(verify_credentials)]: the dependency is
    resolved first and the endpoint function is called with its value; an
    exception of the dependency ends the request. The request carries Basic
    credentials and a body that passed schema validation. *)
Definition serve (w : world) (credentials : HTTPBasicCredentials) (rq : request)
  : M pyvalue :=
  cu <- verify_credentials w credentials ;;
  handler w rq cu.

(** The status and body the client receives: a returned value is sent with
    200, an [HTTPException] with its own status and detail, and any other
    exception as a plain 500. *)
Inductive http_response : Type :=
| Ok200 (body : pyvalue)
| ErrorDetail (code : nat) (text : string)
| ServerError500.

Definition respond (r : result pyvalue) : http_response :=
  match r with
  | Returns v => Ok200 v
  | Raises (Http e) => ErrorDetail (status_code e) (detail e)
  | Raises (Lib _) => ServerError500
  end.

(** ** Reading a trace *)

Definition is_backend_call (ev : event) : bool :=
  match ev with
  | Ev_requests_post _ _ => false
  | Ev_print _ => false
  | _ => true
  end.

Definition is_execute (ev : event) : bool :=
  match ev with
  | Ev_execute _ _ => true
  | _ => false
  end.

Definition event_eqb (a b : event) : bool :=
  match a, b with
  | Ev_connect, Ev_connect
  | Ev_cursor, Ev_cursor
  | Ev_rollback, Ev_rollback
  | Ev_fetchone, Ev_fetchone
  | Ev_cursor_close, Ev_cursor_close
  | Ev_conn_close, Ev_conn_close => true
  | _, _ => false
  end.

(** Number of calls made to the database layer. *)
Definition backend_calls (t : list event) : nat :=
  List.length (filter is_backend_call t).

(** Number of stored-procedure invocations. *)
Definition invocations (t : list event) : nat :=
  List.length (filter is_execute t).

Definition calls_of (ev : event) (t : list event) : nat :=
  List.length (filter (event_eqb ev) t).

(** The calls that release the cursor and the connection. *)
Definition is_close (ev : event) : bool :=
  match ev with
  | Ev_cursor_close | Ev_conn_close => true
  | _ => false
  end.

(** The calls of the [finally] block: [cursor.close()], and
    [conn.close()] once [cursor.close()] has completed. *)
Definition closing (w : world) : list event :=
  Ev_cursor_close ::
  match w_cursor_close w with
  | Completes _ => [Ev_conn_close]
  | Fails _ => []
  end.

(** ** Reading an outcome *)

(** The (status, detail) pair of the [HTTPException] a computation raises. *)
Definition raised_pair {A} (m : M A) : option (nat * string) :=
  match fst m with
  | Raises (Http e) => Some (status_code e, detail e)
  | _ => None
  end.

Definition pair_is (o : option (nat * string)) (code : nat) (text : string) : bool :=
  match o with
  | Some (c, d) => Nat.eqb c code && String.eqb d text
  | None => false
  end.

(** The outcome of the ten substring tests on a message. *)
Definition tests (msg : string) : list bool :=
  map (fun p => Str.contains p msg) classifier_substrings.

(** ** Worlds used in examples *)

Definition grace : HTTPBasicCredentials :=
  mkCredentials "grace@plymouth.ac.uk" "ISAD123!".

Definition verified_response : Response.t :=
  Response.mk 200 (Completes (JArray [JString "Verified"; JString "True"])).

(** Every call completes; the read procedure returns one row. *)
Definition healthy : world :=
  mkWorld (fun _ _ => Completes verified_response)
    (Completes tt) (Completes tt) (fun _ _ => Completes tt) (Completes tt)
    (Completes (Some [SqlInt 7; SqlStr "ada"]))
    (Some ["User_ID"; "Username"])
    (Completes tt) (Completes tt)
    (fun _ => Completes tt).

Definition with_post (w : world) (o : outcome Response.t) : world :=
  mkWorld (fun _ _ => o) (w_connect w) (w_cursor w) (w_execute w)
    (w_rollback w) (w_fetchone w) (w_description w)
    (w_cursor_close w) (w_conn_close w)
    (w_print w).

Definition with_cursor (w : world) (o : outcome unit) : world :=
  mkWorld (w_post w) (w_connect w) o (w_execute w)
    (w_rollback w) (w_fetchone w) (w_description w)
    (w_cursor_close w) (w_conn_close w)
    (w_print w).

Definition with_execute (w : world) (o : outcome unit) : world :=
  mkWorld (w_post w) (w_connect w) (w_cursor w) (fun _ _ => o)
    (w_rollback w) (w_fetchone w) (w_description w)
    (w_cursor_close w) (w_conn_close w)
    (w_print w).

Definition with_fetchone (w : world) (o : outcome (option (list sql_value)))
  : world :=
  mkWorld (w_post w) (w_connect w) (w_cursor w) (w_execute w)
    (w_rollback w) o (w_description w)
    (w_cursor_close w) (w_conn_close w)
    (w_print w).

Definition with_cursor_close (w : world) (o : outcome unit) : world :=
  mkWorld (w_post w) (w_connect w) (w_cursor w) (w_execute w)
    (w_rollback w) (w_fetchone w) (w_description w)
    o (w_conn_close w)
    (w_print w).

Definition ada : UserCreate.t :=
  UserCreate.mk "ada" (Some "ada@x.com") None None None.

(** ** Reading a row mapping *)

(** [d.get(k)] on an insertion-ordered dict. *)
Fixpoint dict_get (d : list (string * sql_value)) (k : string) : option sql_value :=
  match d with
  | [] => None
  | (k', v) :: d' => if String.eqb k' k then Some v else dict_get d' k
  end.

(** The value paired with [k] by the last pair of [pairs] that has key [k]. *)
Definition last_binding (pairs : list (string * sql_value)) (k : string)
  : option sql_value :=
  dict_get (rev pairs) k.

(** [d.keys()]. *)
Definition keys (d : list (string * sql_value)) : list string := map fst d.

(** The accumulating loop of [dict(pairs)], started from any dict. *)
Definition dict_from (d pairs : list (string * sql_value))
  : list (string * sql_value) :=
  fold_left (fun d kv => dict_set d (fst kv) (snd kv)) pairs d.

(** ** Letter case outside ASCII *)

(** U+017F LATIN SMALL LETTER LONG S, as UTF-8. Unicode makes it a lowercase
    letter whose uppercase is [S]; [str.lower] leaves it as it is. *)
Definition long_s : string :=
  String (ascii_of_nat 197) (String (ascii_of_nat 191) EmptyString).

(** Texts that differ only in letter case, when the long s is counted as a
    case form of the letter s. *)
Inductive unicode_case_variant : string -> string -> Prop :=
| ucv_nil : unicode_case_variant EmptyString EmptyString
| ucv_cons a b s t :
    Str.same_letter a b -> unicode_case_variant s t ->
    unicode_case_variant (String a s) (String b t)
| ucv_long_s a s t :
    a = "S"%char \/ a = "s"%char -> unicode_case_variant s t ->
    unicode_case_variant (String a s) (long_s ++ t)%string.

(** ** Reading a message *)

Definition is_lower_letter (c : ascii) : bool :=
  let n := nat_of_ascii c in Nat.leb 97 n && Nat.leb n 122.

(** No character of the message is one of [a]..[z]. *)
Definition no_lower_letter (s : string) : bool :=
  forallb (fun c => negb (is_lower_letter c)) (list_ascii_of_string s).

(** ** Reading a response *)

Definition is_post (ev : event) : bool :=
  match ev with
  | Ev_requests_post _ _ => true
  | _ => false
  end.

(** Every (status, detail) pair written in the module. *)
Definition module_details : list (nat * string) :=
  [ (401, "Invalid credentials");
    (401, "Authentication failed");
    (503, "Authentication service unavailable");
    (503, "Database connection failed");
    (404, "User not found");
    (404, "New Activity not found");
    (404, "Old Activity not found for this user");
    (404, "Activity not found");
    (409, "Activity already exists for this user.");
    (409, "Email already exists.");
    (409, "Username already exists");
    (409, "Invalid date of birth, must be at least 13 years old.");
    (409, "Invalid phone number format, the number must start with +.");
    (500, "Internal server error");
    (500, "Failed to retrieve user profile");
    (500, "Failed to delete user profile") ].

(** The routes whose [except] clause calls [validation_checking]. *)
Definition uses_validation_checking (rq : request) : bool :=
  match rq with
  | GET_profile _ | DELETE_profile _ => false
  | _ => true
  end.

Definition with_rollback (w : world) (o : outcome unit) : world :=
  mkWorld (w_post w) (w_connect w) (w_cursor w) (w_execute w)
    o (w_fetchone w) (w_description w)
    (w_cursor_close w) (w_conn_close w)
    (w_print w).

Definition with_connect (w : world) (o : outcome unit) : world :=
  mkWorld (w_post w) o (w_cursor w) (w_execute w)
    (w_rollback w) (w_fetchone w) (w_description w)
    (w_cursor_close w) (w_conn_close w)
    (w_print w).

Definition with_conn_close (w : world) (o : outcome unit) : world :=
  mkWorld (w_post w) (w_connect w) (w_cursor w) (w_execute w)
    (w_rollback w) (w_fetchone w) (w_description w)
    (w_cursor_close w) o
    (w_print w).

Definition with_row (w : world) (columns : list string) (values : list sql_value)
  : world :=
  mkWorld (w_post w) (w_connect w) (w_cursor w) (w_execute w)
    (w_rollback w) (Completes (Some values)) (Some columns)
    (w_cursor_close w) (w_conn_close w)
    (w_print w).

Definition with_print (w : world) (o : outcome unit) : world :=
  mkWorld (w_post w) (w_connect w) (w_cursor w) (w_execute w)
    (w_rollback w) (w_fetchone w) (w_description w)
    (w_cursor_close w) (w_conn_close w) (fun _ => o).

Definition tim : HTTPBasicCredentials :=
  mkCredentials "tim@plymouth.ac.uk" "COMP2001!".

(** * Properties *)

(** ** Strings *)

Section StringFacts.

Lemma append_assoc (a b c : string) :
  ((a ++ b) ++ c)%string = (a ++ b ++ c)%string.
Proof.
  induction a as [|x a IH]; simpl; [reflexivity | now rewrite IH].
Qed.

Lemma startswith_spec (p s : string) :
  Str.startswith p s = true <-> exists t, s = (p ++ t)%string.
Proof.
  revert s; induction p as [|a p IH]; intros s; simpl.
  - split; [intros _; now exists s | reflexivity].
  - destruct s as [|b s].
    + split; [discriminate | intros [t Ht]; discriminate].
    + rewrite andb_true_iff, Ascii.eqb_eq, IH. split.
      * intros [-> [t ->]]. now exists t.
      * intros [t Ht]. injection Ht as -> ->. split; [reflexivity | now exists t].
Qed.

Lemma contains_spec (sub s : string) :
  Str.contains sub s = true <->
  exists pre post, s = (pre ++ sub ++ post)%string.
Proof.
  induction s as [|c s IH].
  - simpl. rewrite orb_false_r, startswith_spec. split.
    + intros [t Ht]. now exists EmptyString, t.
    + intros [pre [post H]]. destruct pre; [now exists post | discriminate].
  - simpl. rewrite orb_true_iff, startswith_spec, IH. split.
    + intros [[t Ht] | [pre [post H]]].
      * exists EmptyString, t. exact Ht.
      * exists (String c pre), post. simpl. now rewrite H.
    + intros [pre [post H]]. destruct pre as [|x pre]; simpl in H.
      * left. now exists post.
      * right. injection H as _ H. now exists pre, post.
Qed.

(** A string that contains [a ++ b] contains [a]. *)
Lemma contains_weaken (a b s : string) :
  Str.contains (a ++ b)%string s = true -> Str.contains a s = true.
Proof.
  rewrite !contains_spec. intros [pre [post H]].
  exists pre, (b ++ post)%string. rewrite H, append_assoc. reflexivity.
Qed.



Lemma lower_char_idem (c : ascii) :
  Str.lower_char (Str.lower_char c) = Str.lower_char c.
Proof.
  destruct c as [[] [] [] [] [] [] [] []]; reflexivity.
Qed.

Lemma same_letter_lower (a b : ascii) :
  Str.same_letter a b -> Str.lower_char a = Str.lower_char b.
Proof.
  intros [-> | [-> | ->]]; [reflexivity | |]; now rewrite lower_char_idem.
Qed.

Lemma case_variant_lower (m m' : string) :
  Str.case_variant m m' -> Str.lower m = Str.lower m'.
Proof.
  induction 1 as [|a b s t Hab _ IH]; simpl; [reflexivity|].
  now rewrite (same_letter_lower _ _ Hab), IH.
Qed.

Lemma case_variant_refl (m : string) : Str.case_variant m m.
Proof.
  induction m; constructor; [now left | assumption].
Qed.

Lemma case_variant_of_lower (m : string) : Str.case_variant m (Str.lower m).
Proof.
  induction m; simpl; constructor; [right; now left | assumption].
Qed.


End StringFacts.

(** ** The error classifier *)

Section Classifier.

Lemma old_activity_substring (msg : string) :
  Str.contains "old activity not found for this user" msg = true ->
  Str.contains "old activity not found" msg = true.
Proof.
  exact (contains_weaken "old activity not found" " for this user" msg).
Qed.

(** [validation_checking] always raises, makes no call, and what it
    raises is a row of the table. *)
Lemma validation_checking_raises (msg : string) :
  exists code text,
    validation_checking msg = raise (http code text) /\
    In (code, text) error_table.
Proof.
  unfold validation_checking, error_table.
  repeat match goal with
         | |- context [if Str.contains ?p msg then _ else _] =>
             destruct (Str.contains p msg)
         end;
    eexists; eexists; (split; [reflexivity | simpl; tauto]).
Qed.

Lemma validation_checking_tests (m m' : string) :
  tests m = tests m' -> validation_checking m = validation_checking m'.
Proof.
  unfold tests, classifier_substrings, validation_checking. simpl.
  intros H. injection H as -> -> -> -> -> -> -> -> -> ->. reflexivity.
Qed.

End Classifier.

(** C1 (what the code does at the claim's own message): the message
    "old activity not found for this user" is answered 404 with detail
    "Old Activity not found for this user", not 409 with detail
    "Old activity not found for this user.", because the shorter substring
    "old activity not found" is tested first. *)
Theorem old_activity_for_this_user_is_404 :
  validation_checking "old activity not found for this user"
  = raise (http 404 "Old Activity not found for this user")
  /\ pair_is (raised_pair (validation_checking "old activity not found for this user"))
       409 "Old activity not found for this user." = false
  /\ nth_error classifier_substrings 2 = Some "old activity not found"
  /\ nth_error classifier_substrings 5 = Some "old activity not found for this user".
Proof.
  repeat split; reflexivity.
Qed.

(** C2: for every input string [validation_checking] never raises 409 with
    detail "Old activity not found for this user."; a message containing
    "old activity not found for this user" also contains
    "old activity not found", and is answered 404 by an earlier branch. *)
Theorem old_activity_conflict_unreachable (msg : string) :
  pair_is (raised_pair (validation_checking msg))
    409 "Old activity not found for this user." = false
  /\ (Str.contains "old activity not found for this user" msg = true ->
      Str.contains "old activity not found" msg = true
      /\ exists text, validation_checking msg = raise (http 404 text)).
Proof.
  split.
  - unfold validation_checking.
    destruct (Str.contains "old activity not found for this user" msg) eqn:Hlong.
    + rewrite (old_activity_substring msg Hlong).
      destruct (Str.contains "user not found" msg);
        [reflexivity | destruct (Str.contains "new activity not found" msg); reflexivity].
    + repeat match goal with
             | |- context [if Str.contains ?p msg then _ else _] =>
                 destruct (Str.contains p msg)
             end; reflexivity.
  - intros Hlong. split; [exact (old_activity_substring msg Hlong)|].
    unfold validation_checking. rewrite (old_activity_substring msg Hlong).
    destruct (Str.contains "user not found" msg); [eexists; reflexivity|].
    destruct (Str.contains "new activity not found" msg); eexists; reflexivity.
Qed.

Lemma old_activity_conflict_unreachable_witness :
  Str.contains "old activity not found for this user"
    "error: old activity not found for this user (50000)" = true
  /\ Str.contains "old activity not found"
       "error: old activity not found for this user (50000)" = true
  /\ exists text,
       validation_checking "error: old activity not found for this user (50000)"
       = raise (http 404 text).
Proof.
  split; [reflexivity|].
  apply (old_activity_conflict_unreachable
           "error: old activity not found for this user (50000)").
  reflexivity.
Defined.

(** C5: [validation_checking] is total with a fixed output set: for every
    message it raises exactly one [HTTPException], makes no call, and the
    (status, detail) pair is a row of the eleven-row table; a message that
    matches none of the substrings gets 500 "Internal server error"; the
    detail is chosen by the ten substring tests alone, so two messages with
    the same test outcomes get the same exception and no text of the
    message reaches the detail. *)
Theorem validation_checking_total_fixed (msg : string) :
  (exists code text,
      validation_checking msg = (Raises (http code text), [])
      /\ In (code, text) error_table)
  /\ List.length error_table = 11
  /\ (forallb (fun p => negb (Str.contains p msg)) classifier_substrings = true ->
      validation_checking msg = raise (http 500 "Internal server error"))
  /\ (forall msg', tests msg = tests msg' ->
      validation_checking msg = validation_checking msg').
Proof.
  split; [exact (validation_checking_raises msg)|].
  split; [reflexivity|].
  split.
  - unfold classifier_substrings, validation_checking. simpl.
    rewrite !andb_true_iff, !negb_true_iff.
    intros (-> & -> & -> & -> & -> & -> & -> & -> & -> & -> & _). reflexivity.
  - intros msg'. apply validation_checking_tests.
Qed.

Lemma validation_checking_total_fixed_witness :
  validation_checking "deadlock victim" = raise (http 500 "Internal server error")
  /\ validation_checking "USER NOT FOUND" = validation_checking "deadlock victim".
Proof.
  pose proof (validation_checking_total_fixed "deadlock victim")
    as (_ & _ & Hnone & Hsame).
  split.
  - apply Hnone. reflexivity.
  - symmetry. apply Hsame. reflexivity.
Defined.

(** ** Authentication *)

Section Authentication.

Variable w : world.
Variable credentials : HTTPBasicCredentials.

Let post := w_post w (username credentials) (password credentials).
Let ev := Ev_requests_post (username credentials) (password credentials).

Lemma json_eq_str_true (v : json) (s : string) :
  json_eq_str v s = true <-> v = JString s.
Proof.
  destruct v; simpl; try (split; [discriminate | intros H; discriminate H]).
  rewrite String.eqb_eq. split; [now intros -> | now intros [= ->]].
Qed.

(** The accepted bodies: a list that starts with "Verified", "True". *)
Lemma verified_shape (v : json) :
  verified v = true <->
  exists rest, v = JArray (JString "Verified" :: JString "True" :: rest).
Proof.
  split.
  - destruct v as [| | | |items|]; simpl; try discriminate.
    destruct items as [|a [|b rest]]; simpl; try discriminate.
    rewrite andb_true_iff, !json_eq_str_true. intros [-> ->]. now exists rest.
  - intros [rest ->]. reflexivity.
Qed.

Lemma verify_transport_failure (cls : string) :
  post = Fails (RequestException cls) ->
  verify_credentials w credentials = (Raises (Http auth_service_unavailable), [ev]).
Proof.
  unfold post, verify_credentials, call, bind, try_except. intros ->. reflexivity.
Qed.

Lemma verify_other_failure (e : lib_exn) :
  post = Fails e -> is_RequestException (Lib e) = None ->
  verify_credentials w credentials = (Raises (Lib e), [ev]).
Proof.
  unfold post, verify_credentials, call, bind, try_except. intros -> He.
  destruct e; simpl in *; try reflexivity; discriminate.
Qed.

Lemma verify_non_200 (r : Response.t) :
  post = Completes r -> Response.status_code r <> 200 ->
  verify_credentials w credentials = (Raises (Http authentication_failed), [ev]).
Proof.
  unfold post, verify_credentials, call, bind, try_except. intros -> Hs.
  apply Nat.eqb_neq in Hs. simpl. rewrite Hs. reflexivity.
Qed.

Lemma verify_200_parsed (v : json) :
  post = Completes (Response.mk 200 (Completes v)) ->
  verify_credentials w credentials =
  ((if verified v then Returns (mkUser (username credentials) true)
    else Raises (Http invalid_credentials)), [ev]).
Proof.
  unfold post, verify_credentials, call, bind, try_except. intros ->.
  simpl. destruct (verified v); reflexivity.
Qed.

(** When [response.json()] raises on a 200 response, the request is never
    answered "Invalid credentials": the exception is turned into the 503 of
    the [except] clause when it is a [RequestException], and escapes
    otherwise. *)
Lemma verify_200_unparseable (e : lib_exn) :
  post = Completes (Response.mk 200 (Fails e)) ->
  verify_credentials w credentials =
  ((match is_RequestException (Lib e) with
    | Some _ => Raises (Http auth_service_unavailable)
    | None => Raises (Lib e)
    end), [ev]).
Proof.
  unfold post, verify_credentials, call, bind, try_except, local, raise. intros ->.
  destruct e; reflexivity.
Qed.

(** Whatever the world answers, [verify_credentials] posts once and makes
    no other call. *)
Lemma verify_trace : snd (verify_credentials w credentials) = [ev].
Proof.
  unfold verify_credentials, call, bind, try_except, local, ret, raise.
  fold post. destruct post as [r|e]; simpl.
  - destruct (Nat.eqb (Response.status_code r) 200); [|reflexivity].
    destruct (Response.json r) as [v|e]; simpl.
    + destruct (verified v); reflexivity.
    + destruct e; reflexivity.
  - destruct e; reflexivity.
Qed.

Lemma verify_success_inv (u : current_user) :
  fst (verify_credentials w credentials) = Returns u ->
  u = mkUser (username credentials) true /\
  exists v, post = Completes (Response.mk 200 (Completes v)) /\ verified v = true.
Proof.
  unfold verify_credentials, call, bind, try_except, local, ret, raise.
  fold post. destruct post as [[st js]|e]; simpl.
  - destruct (Nat.eqb_spec st 200) as [->|]; [|discriminate].
    destruct js as [v|e]; simpl.
    + destruct (verified v) eqn:Hv; simpl; [|discriminate].
      intros [= <-]. split; [reflexivity|]. now exists v.
    + destruct e; discriminate.
  - destruct e; discriminate.
Qed.

End Authentication.

(** C3 (as amended): [verify_credentials] returns an authenticated
    principal exactly when the endpoint answers 200 with a decoded body that
    is a list of at least two elements whose first two are "Verified" and
    "True"; every other decoded 200 body (a shorter list, other elements, a
    non-list) is answered 401 "Invalid credentials". *)
Theorem verify_credentials_success_iff (w : world) (credentials : HTTPBasicCredentials) :
  (forall u,
      fst (verify_credentials w credentials) = Returns u <->
      u = mkUser (username credentials) true /\
      exists rest,
        w_post w (username credentials) (password credentials)
        = Completes (Response.mk 200
            (Completes (JArray (JString "Verified" :: JString "True" :: rest)))))
  /\ (forall v,
      w_post w (username credentials) (password credentials)
      = Completes (Response.mk 200 (Completes v)) ->
      (forall rest, v <> JArray (JString "Verified" :: JString "True" :: rest)) ->
      fst (verify_credentials w credentials) = Raises (Http invalid_credentials)
      /\ status_code invalid_credentials = 401).
Proof.
  split.
  - intros u. split.
    + intros H. apply verify_success_inv in H as [-> [v [Hp Hv]]].
      split; [reflexivity|]. apply verified_shape in Hv as [rest ->]. now exists rest.
    + intros [-> [rest Hp]]. now rewrite (verify_200_parsed _ _ _ Hp).
  - intros v Hp Hv. split; [|reflexivity].
    rewrite (verify_200_parsed _ _ _ Hp).
    destruct (verified v) eqn:E; [|reflexivity].
    apply verified_shape in E as [rest ->]. now destruct (Hv rest).
Qed.

Lemma verify_credentials_success_iff_witness :
  fst (verify_credentials healthy grace) = Returns (mkUser "grace@plymouth.ac.uk" true)
  /\ fst (verify_credentials
            (with_post healthy (Completes (Response.mk 200 (Completes (JArray [JString "Verified"])))))
            grace)
     = Raises (Http invalid_credentials).
Proof.
  split.
  - apply (proj1 (verify_credentials_success_iff healthy grace)).
    split; [reflexivity | now exists []].
  - apply (proj2 (verify_credentials_success_iff
                    (with_post healthy
                       (Completes (Response.mk 200 (Completes (JArray [JString "Verified"])))))
                    grace) (JArray [JString "Verified"])).
    + reflexivity.
    + intros rest H. discriminate H.
Defined.

(** C3 (as stated) fails: a 200 body of three elements that starts with
    "Verified", "True" is not the two-element sequence, yet the caller is
    authenticated; and a 200 body that cannot be decoded is not answered
    401: the decoding error is answered 503 when it is a
    [RequestException] and escapes uncaught otherwise. *)
Lemma verify_credentials_accepts_longer_list :
  JArray [JString "Verified"; JString "True"; JString "extra"]
  <> JArray [JString "Verified"; JString "True"]
  /\ fst (verify_credentials
            (with_post healthy
               (Completes (Response.mk 200
                  (Completes (JArray [JString "Verified"; JString "True"; JString "extra"])))))
            grace)
     = Returns (mkUser "grace@plymouth.ac.uk" true)
  /\ fst (verify_credentials
            (with_post healthy
               (Completes (Response.mk 200 (Fails (RequestException "JSONDecodeError")))))
            grace)
     = Raises (Http auth_service_unavailable)
  /\ fst (verify_credentials
            (with_post healthy
               (Completes (Response.mk 200 (Fails (OtherError "ValueError")))))
            grace)
     = Raises (Lib (OtherError "ValueError")).
Proof.
  repeat split; try reflexivity. discriminate.
Qed.

(** C4: a transport-level failure of the outbound call (a
    [RequestException] such as a timeout or a connection error) is answered
    503 "Authentication service unavailable", never 401; any non-200 answer
    of the endpoint is answered 401 "Authentication failed". *)
Theorem verify_credentials_failures (w : world) (credentials : HTTPBasicCredentials) :
  (forall cls,
      w_post w (username credentials) (password credentials)
      = Fails (RequestException cls) ->
      fst (verify_credentials w credentials) = Raises (Http auth_service_unavailable)
      /\ raised_pair (verify_credentials w credentials)
         = Some (503, "Authentication service unavailable"))
  /\ (forall r,
      w_post w (username credentials) (password credentials) = Completes r ->
      Response.status_code r <> 200 ->
      fst (verify_credentials w credentials) = Raises (Http authentication_failed)
      /\ raised_pair (verify_credentials w credentials)
         = Some (401, "Authentication failed")).
Proof.
  split.
  - intros cls H. now rewrite (verify_transport_failure _ _ _ H).
  - intros r H Hs. now rewrite (verify_non_200 _ _ _ H Hs).
Qed.

Lemma verify_credentials_failures_witness :
  raised_pair (verify_credentials (with_post healthy (Fails (RequestException "Timeout"))) grace)
  = Some (503, "Authentication service unavailable")
  /\ raised_pair (verify_credentials
                    (with_post healthy (Completes (Response.mk 403 (Completes JNull)))) grace)
     = Some (401, "Authentication failed").
Proof.
  split.
  - apply (proj1 (verify_credentials_failures
                    (with_post healthy (Fails (RequestException "Timeout"))) grace)
             "Timeout").
    reflexivity.
  - apply (proj2 (verify_credentials_failures
                    (with_post healthy (Completes (Response.mk 403 (Completes JNull)))) grace)
             (Response.mk 403 (Completes JNull))).
    + reflexivity.
    + simpl. lia.
Defined.

(** ** Endpoints *)

Arguments validation_checking : simpl never.
Arguments Str.lower : simpl never.
Arguments Str.contains : simpl never.

Ltac unfold_handlers :=
  unfold handler, create_user, read_user, update_user, create_user_preferences,
    update_user_preferences, delete_user, get_db_connection, release, execute,
    call, bind, try_except, try_finally, ret, raise.

(** Replaces a call of the classifier by the exception it raises. *)
Ltac classify_away :=
  repeat match goal with
         | |- context [validation_checking ?m] =>
             let c := fresh "code" in
             let d := fresh "text" in
             let E := fresh "E" in
             destruct (validation_checking_raises m) as (c & d & E & _);
             rewrite E; unfold raise
         end.

Section Gate.

Variable w : world.
Variable credentials : HTTPBasicCredentials.
Variable rq : request.

Lemma serve_unauthenticated (e : exn) :
  fst (verify_credentials w credentials) = Raises e ->
  serve w credentials rq
  = (Raises e, [Ev_requests_post (username credentials) (password credentials)]).
Proof.
  intros H. pose proof (verify_trace w credentials) as Ht.
  unfold serve, bind. destruct (verify_credentials w credentials) as [r t].
  simpl in H, Ht. now subst.
Qed.

Lemma serve_authenticated (cu : current_user) :
  fst (verify_credentials w credentials) = Returns cu ->
  serve w credentials rq
  = (fst (handler w rq cu),
     Ev_requests_post (username credentials) (password credentials)
       :: snd (handler w rq cu)).
Proof.
  intros H. pose proof (verify_trace w credentials) as Ht.
  unfold serve, bind. destruct (verify_credentials w credentials) as [r t].
  simpl in H, Ht. subst. now destruct (handler w rq cu).
Qed.

End Gate.

(** C7: on every route, when credential verification fails the request
    ends with the exception of the verifier and the only call made is the
    post to the authentication endpoint: no connection is opened, no cursor
    is created, no stored procedure is invoked; the backend call count of
    the run is zero. *)
Theorem no_backend_call_when_unauthenticated
    (w : world) (credentials : HTTPBasicCredentials) (rq : request) (e : exn) :
  fst (verify_credentials w credentials) = Raises e ->
  fst (serve w credentials rq) = Raises e
  /\ backend_calls (snd (serve w credentials rq)) = 0
  /\ invocations (snd (serve w credentials rq)) = 0
  /\ calls_of Ev_connect (snd (serve w credentials rq)) = 0.
Proof.
  intros H. rewrite (serve_unauthenticated w credentials rq e H).
  repeat split; reflexivity.
Qed.

Lemma no_backend_call_when_unauthenticated_witness :
  fst (serve (with_post healthy (Completes (Response.mk 200 (Completes (JArray [JString "Verified"; JString "False"])))))
         grace (POST_profiles ada))
  = Raises (Http invalid_credentials)
  /\ backend_calls
       (snd (serve (with_post healthy (Completes (Response.mk 200 (Completes (JArray [JString "Verified"; JString "False"])))))
               grace (POST_profiles ada))) = 0.
Proof.
  pose proof (no_backend_call_when_unauthenticated
                (with_post healthy (Completes (Response.mk 200 (Completes (JArray [JString "Verified"; JString "False"])))))
                grace (POST_profiles ada) (Http invalid_credentials) eq_refl)
    as (H1 & H2 & _).
  split; [exact H1 | exact H2].
Defined.

(** C8 (as amended): classification does not depend on the case of ASCII
    letters. Two backend messages that differ only in the case of the
    letters [A]..[Z], [a]..[z] are classified alike, because each handler
    lowercases the message before the substring tests: the classifier gets
    the same argument, and on every route the whole run of the handler (its
    outcome and its calls) is the same for the two messages. *)
Theorem classification_case_insensitive (m m' : string) :
  Str.case_variant m m' ->
  validation_checking (Str.lower m) = validation_checking (Str.lower m')
  /\ forall w rq cu,
       handler (with_execute w (Fails (PyodbcError m))) rq cu
       = handler (with_execute w (Fails (PyodbcError m'))) rq cu.
Proof.
  intros H. apply case_variant_lower in H. split; [now rewrite H|].
  intros w rq cu. destruct rq; unfold_handlers; simpl; rewrite H; reflexivity.
Qed.

Lemma classification_case_insensitive_witness :
  validation_checking (Str.lower "Email Already EXISTS")
  = validation_checking (Str.lower "email already exists")
  /\ fst (handler (with_execute healthy (Fails (PyodbcError "Email Already EXISTS")))
            (POST_profiles ada) (mkUser "grace@plymouth.ac.uk" true))
     = Raises (http 409 "Email already exists.").
Proof.
  assert (V : Str.case_variant "Email Already EXISTS" "email already exists")
    by (exact (case_variant_of_lower "Email Already EXISTS")).
  destruct (classification_case_insensitive _ _ V) as [H1 H2].
  split; [exact H1|]. rewrite H2. reflexivity.
Defined.

Lemma unicode_case_variant_refl (m : string) : unicode_case_variant m m.
Proof.
  induction m; [apply ucv_nil | apply ucv_cons; [now left | assumption]].
Qed.

(** C8 (as stated) fails for letters outside ASCII. The long s is a case
    form of the letter s, so "u", long s, "er not found" differs from
    "uSer not found" only in letter case; lowercasing turns [S] into [s] and
    keeps the long s, so the first message is answered 404 "User not found"
    and the second 500 "Internal server error". *)
Lemma long_s_variant_classified_differently :
  unicode_case_variant "uSer not found" ("u" ++ long_s ++ "er not found")%string
  /\ validation_checking (Str.lower "uSer not found")
     = raise (http 404 "User not found")
  /\ validation_checking (Str.lower ("u" ++ long_s ++ "er not found")%string)
     = raise (http 500 "Internal server error")
  /\ respond (fst (handler (with_execute healthy (Fails (PyodbcError "uSer not found")))
                     (PUT_profile 7 (UpdateUser.mk None None None None None))
                     (mkUser "grace@plymouth.ac.uk" true)))
     = ErrorDetail 404 "User not found"
  /\ respond (fst (handler
                     (with_execute healthy
                        (Fails (PyodbcError ("u" ++ long_s ++ "er not found")%string)))
                     (PUT_profile 7 (UpdateUser.mk None None None None None))
                     (mkUser "grace@plymouth.ac.uk" true)))
     = ErrorDetail 500 "Internal server error".
Proof.
  split; [|repeat split; reflexivity].
  change ("u" ++ long_s ++ "er not found")%string
    with (String "u"%char (long_s ++ "er not found")%string).
  apply ucv_cons; [now left|].
  apply (ucv_long_s "S"%char "er not found" "er not found"); [now left|].
  apply unicode_case_variant_refl.
Qed.

Ltac split_outcomes :=
  repeat match goal with
         | |- context [match ?x with Completes _ => _ | Fails _ => _ end] =>
             destruct x as [?|[]] eqn:?; simpl
         | |- context [match ?x with Some _ => _ | None => _ end] =>
             destruct x eqn:?; simpl
         | |- context [if Str.contains ?p ?m then _ else _] =>
             destruct (Str.contains p m) eqn:?; simpl
         | u : unit |- _ => destruct u
         end.

Ltac pick_rest :=
  do 2 eexists;
  first [ exists (@nil event); repeat split; reflexivity
        | exists [Ev_rollback]; repeat split; reflexivity
        | exists [Ev_fetchone]; repeat split; reflexivity
        | eexists (cons (Ev_print _) nil); repeat split; reflexivity ].


Section NarrowClassification.

Variable w : world.
Variable user_id : Z.
Variable cu : current_user.

Hypothesis connected : w_connect w = Completes tt.
Hypothesis cursor_created : w_cursor w = Completes tt.
Hypothesis cursor_closed : w_cursor_close w = Completes tt.
Hypothesis conn_closed : w_conn_close w = Completes tt.




Lemma read_user_no_row :
  w_execute w "CW2.Read_User" [SqlInt user_id] = Completes tt ->
  w_fetchone w = Completes None ->
  read_user w user_id cu
  = (Raises (Lib TypeError),
     [Ev_connect; Ev_cursor; Ev_execute "CW2.Read_User" [SqlInt user_id];
      Ev_fetchone; Ev_cursor_close; Ev_conn_close]).
Proof.
  intros He Hf. unfold_handlers.
  rewrite connected, cursor_created, cursor_closed, conn_closed, He, Hf. simpl.
  destruct (w_description w); reflexivity.
Qed.

End NarrowClassification.



(** The 404 of [read_user] comes from a [pyodbc.Error] of the backend. *)
Lemma read_user_404_inv (w : world) (user_id : Z) (cu : current_user) :
  respond (fst (read_user w user_id cu)) = ErrorDetail 404 "User not found" ->
  exists text,
    (w_execute w "CW2.Read_User" [SqlInt user_id] = Fails (PyodbcError text)
     \/ (w_execute w "CW2.Read_User" [SqlInt user_id] = Completes tt
         /\ w_fetchone w = Fails (PyodbcError text)))
    /\ Str.contains "user not found" (Str.lower text) = true.
Proof.
  unfold_handlers. split_outcomes.
  all: simpl; try discriminate; intros _.
  all: eexists; split; [first [left; reflexivity | right; split; reflexivity] | assumption].
Qed.

(** C9 (as amended): on every route and in every execution in which the
    connection and its cursor are both obtained, exactly one stored
    procedure is invoked, and whatever happens next (success, a classified
    backend error, or any other exception) the handler ends with
    [cursor.close()], followed by [conn.close()] whenever [cursor.close()]
    completes; no call follows them and none of the earlier calls is a
    close. *)
Theorem release_on_every_exit (w : world) (rq : request) (cu : current_user) :
  w_connect w = Completes tt ->
  w_cursor w = Completes tt ->
  exists proc params rest,
    snd (handler w rq cu)
    = Ev_connect :: Ev_cursor :: (Ev_execute proc params :: rest) ++ closing w
    /\ existsb is_close rest = false
    /\ existsb is_execute rest = false
    /\ invocations (snd (handler w rq cu)) = 1.
Proof.
  intros Hc Hk. unfold closing.
  destruct rq; unfold_handlers; rewrite Hc, Hk; simpl.
  all: split_outcomes; classify_away; simpl.
  all: try pick_rest.
  all: split_outcomes.
  all: pick_rest.
Qed.

Lemma release_on_every_exit_witness :
  exists proc params rest,
    snd (handler (with_execute healthy (Fails (OtherError "MemoryError")))
           (DELETE_profile 7) (mkUser "grace@plymouth.ac.uk" true))
    = Ev_connect :: Ev_cursor :: (Ev_execute proc params :: rest)
        ++ [Ev_cursor_close; Ev_conn_close]
    /\ existsb is_close rest = false
    /\ existsb is_execute rest = false
    /\ invocations
         (snd (handler (with_execute healthy (Fails (OtherError "MemoryError")))
                 (DELETE_profile 7) (mkUser "grace@plymouth.ac.uk" true))) = 1.
Proof.
  apply (release_on_every_exit
           (with_execute healthy (Fails (OtherError "MemoryError")))
           (DELETE_profile 7) (mkUser "grace@plymouth.ac.uk" true));
    reflexivity.
Defined.

(** C9 (as stated) fails. The cursor is created before the [try]: when
    [conn.cursor()] raises, the connection has been obtained, it is never
    closed and no stored procedure is invoked. And inside the [finally],
    when [cursor.close()] raises, [conn.close()] is not reached. *)
Lemma connection_left_open :
  w_connect (with_cursor healthy (Fails (PyodbcError "HY000"))) = Completes tt
  /\ create_user (with_cursor healthy (Fails (PyodbcError "HY000"))) ada
       (mkUser "grace@plymouth.ac.uk" true)
     = (Raises (Lib (PyodbcError "HY000")), [Ev_connect; Ev_cursor])
  /\ calls_of Ev_conn_close
       (snd (create_user (with_cursor healthy (Fails (PyodbcError "HY000"))) ada
               (mkUser "grace@plymouth.ac.uk" true))) = 0
  /\ invocations
       (snd (create_user (with_cursor healthy (Fails (PyodbcError "HY000"))) ada
               (mkUser "grace@plymouth.ac.uk" true))) = 0
  /\ snd (read_user (with_cursor_close healthy (Fails (PyodbcError "HY000"))) 7
            (mkUser "grace@plymouth.ac.uk" true))
     = [Ev_connect; Ev_cursor; Ev_execute "CW2.Read_User" [SqlInt 7];
        Ev_fetchone; Ev_cursor_close].
Proof.
  repeat split; reflexivity.
Qed.




(** C10: when the read procedure completes and [fetchone] returns no row,
    [read_user] does not answer 404 "User not found": building the mapping
    raises a [TypeError] that no [except] clause catches, and after the
    cursor and the connection are closed it leaves the handler and is
    answered as a plain internal error. The 404 is answered only when a
    backend call raises a [pyodbc.Error] whose lowercased text contains
    "user not found". *)
Theorem read_user_empty_result (w : world) (user_id : Z) (cu : current_user) :
  (w_connect w = Completes tt -> w_cursor w = Completes tt ->
   w_cursor_close w = Completes tt -> w_conn_close w = Completes tt ->
   w_execute w "CW2.Read_User" [SqlInt user_id] = Completes tt ->
   w_fetchone w = Completes None ->
   fst (read_user w user_id cu) = Raises (Lib TypeError)
   /\ respond (fst (read_user w user_id cu)) = ServerError500
   /\ snd (read_user w user_id cu)
      = [Ev_connect; Ev_cursor; Ev_execute "CW2.Read_User" [SqlInt user_id];
         Ev_fetchone; Ev_cursor_close; Ev_conn_close])
  /\ (respond (fst (read_user w user_id cu)) = ErrorDetail 404 "User not found" ->
      exists text,
        (w_execute w "CW2.Read_User" [SqlInt user_id] = Fails (PyodbcError text)
         \/ (w_execute w "CW2.Read_User" [SqlInt user_id] = Completes tt
             /\ w_fetchone w = Fails (PyodbcError text)))
        /\ Str.contains "user not found" (Str.lower text) = true).
Proof.
  split; [|apply read_user_404_inv].
  intros Hc Hk Hcc Hnc He Hf.
  rewrite (read_user_no_row w user_id cu Hc Hk Hcc Hnc He Hf).
  repeat split; reflexivity.
Qed.

Lemma read_user_empty_result_witness :
  fst (read_user (with_fetchone healthy (Completes None)) 999
         (mkUser "grace@plymouth.ac.uk" true))
  = Raises (Lib TypeError)
  /\ respond (fst (read_user (with_fetchone healthy (Completes None)) 999
                     (mkUser "grace@plymouth.ac.uk" true)))
     = ServerError500.
Proof.
  destruct (read_user_empty_result (with_fetchone healthy (Completes None)) 999
              (mkUser "grace@plymouth.ac.uk" true)) as [H _].
  destruct (H eq_refl eq_refl eq_refl eq_refl eq_refl eq_refl) as (H1 & H2 & _).
  split; [exact H1 | exact H2].
Defined.

(** * Further properties of the module *)

(** ** The row mapping of [read_user] *)

Section RowMapping.

Lemma dict_get_set_same (d : list (string * sql_value)) (k : string) (v : sql_value) :
  dict_get (dict_set d k v) k = Some v.
Proof.
  induction d as [|[k' v'] d IH]; simpl.
  - now rewrite String.eqb_refl.
  - destruct (String.eqb k' k) eqn:E; simpl; rewrite E; [reflexivity | exact IH].
Qed.

Lemma dict_get_set_other (d : list (string * sql_value)) (k k' : string) (v : sql_value) :
  k <> k' -> dict_get (dict_set d k v) k' = dict_get d k'.
Proof.
  intros Hk. induction d as [|[k0 v0] d IH]; simpl.
  - apply String.eqb_neq in Hk. now rewrite Hk.
  - destruct (String.eqb k0 k) eqn:E; simpl.
    + apply String.eqb_eq in E. subst k0.
      apply String.eqb_neq in Hk. now rewrite Hk.
    + destruct (String.eqb k0 k'); [reflexivity | exact IH].
Qed.

Lemma keys_dict_set (d : list (string * sql_value)) (k : string) (v : sql_value) :
  keys (dict_set d k v) = if existsb (String.eqb k) (keys d) then keys d else keys d ++ [k].
Proof.
  unfold keys. induction d as [|[k0 v0] d IH]; simpl; [reflexivity|].
  rewrite (String.eqb_sym k k0).
  destruct (String.eqb k0 k) eqn:E; simpl.
  - apply String.eqb_eq in E. now subst.
  - rewrite IH. now destruct (existsb (String.eqb k) (map fst d)).
Qed.

Lemma existsb_eqb_In (k : string) (l : list string) :
  existsb (String.eqb k) l = true <-> In k l.
Proof.
  rewrite existsb_exists. split.
  - intros [x [Hx E]]. apply String.eqb_eq in E. now subst.
  - intros H. exists k. split; [assumption | apply String.eqb_refl].
Qed.

Lemma NoDup_keys_dict_set (d : list (string * sql_value)) (k : string) (v : sql_value) :
  NoDup (keys d) -> NoDup (keys (dict_set d k v)).
Proof.
  intros H. rewrite keys_dict_set.
  destruct (existsb (String.eqb k) (keys d)) eqn:E; [assumption|].
  apply NoDup_app; [assumption | repeat constructor; intros [] | ].
  intros x Hx [<-|[]].
  apply existsb_eqb_In in Hx. congruence.
Qed.

Lemma In_keys_dict_set (d : list (string * sql_value)) (k x : string) (v : sql_value) :
  In x (keys (dict_set d k v)) <-> x = k \/ In x (keys d).
Proof.
  rewrite keys_dict_set.
  destruct (existsb (String.eqb k) (keys d)) eqn:E.
  - apply existsb_eqb_In in E. split; [tauto | intros [->|H]; assumption].
  - rewrite in_app_iff. simpl. split; [intros [H|[<-|[]]]; tauto | intros [->|H]; tauto].
Qed.

Lemma dict_from_get (pairs d : list (string * sql_value)) (k : string) :
  dict_get (dict_from d pairs) k
  = match last_binding pairs k with
    | Some v => Some v
    | None => dict_get d k
    end.
Proof.
  unfold last_binding, dict_from. revert d.
  induction pairs as [|[k0 v0] pairs IH]; intros d; simpl; [reflexivity|].
  rewrite IH. clear IH.
  assert (G : forall l, dict_get (l ++ [(k0, v0)]) k
                        = match dict_get l k with
                          | Some v => Some v
                          | None => if String.eqb k0 k then Some v0 else None
                          end).
  { induction l as [|[a b] l IHl]; simpl; [reflexivity|].
    destruct (String.eqb a k); [reflexivity | exact IHl]. }
  rewrite G. destruct (dict_get (rev pairs) k); [reflexivity|].
  destruct (String.eqb k0 k) eqn:E.
  - apply String.eqb_eq in E. subst. apply dict_get_set_same.
  - apply String.eqb_neq in E. now apply dict_get_set_other.
Qed.

Lemma dict_from_NoDup (pairs d : list (string * sql_value)) :
  NoDup (keys d) -> NoDup (keys (dict_from d pairs)).
Proof.
  unfold dict_from. revert d.
  induction pairs as [|kv pairs IH]; intros d H; simpl; [assumption|].
  apply IH. now apply NoDup_keys_dict_set.
Qed.

Lemma dict_from_keys (pairs d : list (string * sql_value)) (x : string) :
  In x (keys (dict_from d pairs)) <-> In x (keys d) \/ In x (keys pairs).
Proof.
  unfold dict_from. revert d.
  induction pairs as [|[k v] pairs IH]; intros d; simpl; [tauto|].
  rewrite IH, In_keys_dict_set. simpl. split; [intros [[->|H]|H] | intros [H|[<-|H]]]; tauto.
Qed.

Lemma dict_from_fresh (pairs d : list (string * sql_value)) :
  NoDup (keys d ++ keys pairs) -> dict_from d pairs = d ++ pairs.
Proof.
  unfold dict_from. revert d.
  induction pairs as [|[k v] pairs IH]; intros d H; simpl.
  - now rewrite app_nil_r.
  - assert (Hset : dict_set d k v = d ++ [(k, v)]).
    { assert (Hk : ~ In k (keys d)).
      { apply NoDup_remove_2 in H. intros Hin. apply H.
        apply in_or_app. now left. }
      clear H IH. induction d as [|[k0 v0] d IHd]; simpl; [reflexivity|].
      destruct (String.eqb k0 k) eqn:E.
      - apply String.eqb_eq in E. subst. destruct Hk. now left.
      - rewrite IHd; [reflexivity|]. intros Hin. apply Hk. now right. }
    rewrite Hset, IH.
    + now rewrite <- app_assoc.
    + unfold keys in *. rewrite map_app. simpl. rewrite <- app_assoc. exact H.
Qed.

Lemma dict_length (pairs d : list (string * sql_value)) :
  List.length (dict_from d pairs) <= List.length d + List.length pairs.
Proof.
  unfold dict_from. revert d.
  induction pairs as [|[k v] pairs IH]; intros d; simpl; [lia|].
  specialize (IH (dict_set d k v)).
  assert (List.length (dict_set d k v) <= S (List.length d)).
  { clear IH. induction d as [|[k0 v0] d IHd]; simpl; [lia|].
    destruct (String.eqb k0 k); simpl; lia. }
  lia.
Qed.

End RowMapping.

Lemma NoDup_keys_combine (columns : list string) (values : list sql_value) :
  NoDup columns -> NoDup (keys (combine columns values)).
Proof.
  unfold keys. revert values.
  induction columns as [|c columns IH]; intros values H; simpl; [constructor|].
  destruct values as [|v values]; simpl; [constructor|].
  inversion H as [|? ? Hc Hn]; subst. constructor; [|now apply IH].
  intros Hin. apply Hc. apply in_map_iff in Hin as [[a b] [<- Hab]].
  now apply in_combine_l in Hab.
Qed.

(** X1: the mapping built by [dict(zip(columns, row))] has one entry per
    distinct column name; looking a name up gives the value of the last
    column of that name, so earlier values of a repeated column name are
    lost; the names of the mapping are exactly the zipped names, and it has
    no more entries than pairs. *)
Theorem row_mapping_lookup (pairs : list (string * sql_value)) :
  (forall k, dict_get (dict pairs) k = last_binding pairs k)
  /\ NoDup (keys (dict pairs))
  /\ (forall k, In k (keys (dict pairs)) <-> In k (keys pairs))
  /\ List.length (dict pairs) <= List.length pairs.
Proof.
  change (dict pairs) with (dict_from [] pairs). repeat split.
  - intros k. rewrite dict_from_get. simpl. now destruct (last_binding pairs k).
  - apply dict_from_NoDup. constructor.
  - rewrite dict_from_keys. simpl. tauto.
  - rewrite dict_from_keys. simpl. tauto.
  - apply (dict_length pairs []).
Qed.

(** X2: when every call completes and [fetchone] returns a row,
    [read_user] returns the mapping of the column names to the values of the
    row, after closing cursor and connection. The mapping is cut to the
    shorter of the two sequences; when the column names are distinct it is
    the zipped sequence itself, in column order. *)
Theorem read_user_returns_row (w : world) (user_id : Z) (cu : current_user)
    (columns : list string) (values : list sql_value) :
  w_connect w = Completes tt -> w_cursor w = Completes tt ->
  w_execute w "CW2.Read_User" [SqlInt user_id] = Completes tt ->
  w_fetchone w = Completes (Some values) ->
  w_description w = Some columns ->
  w_cursor_close w = Completes tt -> w_conn_close w = Completes tt ->
  read_user w user_id cu
  = (Returns (UserData (dict (combine columns values))),
     [Ev_connect; Ev_cursor; Ev_execute "CW2.Read_User" [SqlInt user_id];
      Ev_fetchone; Ev_cursor_close; Ev_conn_close])
  /\ List.length (dict (combine columns values))
     <= Nat.min (List.length columns) (List.length values)
  /\ (NoDup columns -> dict (combine columns values) = combine columns values).
Proof.
  intros Hc Hk He Hf Hd Hcc Hnc. repeat split.
  - unfold_handlers. rewrite Hc, Hk, He, Hf, Hd, Hcc, Hnc. reflexivity.
  - rewrite <- length_combine. apply (dict_length (combine columns values) []).
  - intros Hn. change (dict (combine columns values))
      with (dict_from [] (combine columns values)).
    rewrite dict_from_fresh; [reflexivity|].
    simpl. now apply NoDup_keys_combine.
Qed.

Lemma read_user_returns_row_witness :
  fst (read_user (with_row healthy ["User_ID"; "Username"; "Email"]
                    [SqlInt 7; SqlStr "ada"])
         7 (mkUser "grace@plymouth.ac.uk" true))
  = Returns (UserData [("User_ID", SqlInt 7); ("Username", SqlStr "ada")]).
Proof.
  destruct (read_user_returns_row
              (with_row healthy ["User_ID"; "Username"; "Email"]
                 [SqlInt 7; SqlStr "ada"])
              7 (mkUser "grace@plymouth.ac.uk" true)
              ["User_ID"; "Username"; "Email"] [SqlInt 7; SqlStr "ada"]
              eq_refl eq_refl eq_refl eq_refl eq_refl eq_refl eq_refl)
    as (H & _ & _).
  rewrite H. reflexivity.
Defined.

(** ** Connection failures *)

(** X3: on every route, when [pyodbc.connect] raises a [pyodbc.Error] the
    handler raises 503 "Database connection failed" and makes no further
    call: no cursor, no stored procedure, no close. Any other exception of
    [pyodbc.connect] leaves the handler unchanged, again with no further
    call. *)
Theorem store_unavailable (w : world) (rq : request) (cu : current_user) :
  (forall text,
      w_connect w = Fails (PyodbcError text) ->
      handler w rq cu = (Raises database_connection_failed, [Ev_connect])
      /\ respond (fst (handler w rq cu)) = ErrorDetail 503 "Database connection failed")
  /\ (forall e,
      w_connect w = Fails e -> is_pyodbc_Error (Lib e) = None ->
      handler w rq cu = (Raises (Lib e), [Ev_connect])).
Proof.
  split.
  - intros text H.
    assert (E : handler w rq cu = (Raises database_connection_failed, [Ev_connect]))
      by (destruct rq; unfold_handlers; rewrite H; reflexivity).
    now rewrite E.
  - intros e H He.
    destruct rq; unfold_handlers; rewrite H; destruct e; simpl in *;
      try reflexivity; discriminate.
Qed.

Lemma store_unavailable_witness :
  respond (fst (handler (with_connect healthy (Fails (PyodbcError "08001 (SQLDriverConnect)")))
                  (PUT_profile 7 (UpdateUser.mk None None (Some "+44") None None))
                  (mkUser "grace@plymouth.ac.uk" true)))
  = ErrorDetail 503 "Database connection failed"
  /\ handler (with_connect healthy (Fails (OtherError "MemoryError")))
       (DELETE_profile 7) (mkUser "grace@plymouth.ac.uk" true)
     = (Raises (Lib (OtherError "MemoryError")), [Ev_connect]).
Proof.
  split.
  - apply (proj1 (store_unavailable
                    (with_connect healthy (Fails (PyodbcError "08001 (SQLDriverConnect)")))
                    (PUT_profile 7 (UpdateUser.mk None None (Some "+44") None None))
                    (mkUser "grace@plymouth.ac.uk" true))
             "08001 (SQLDriverConnect)").
    reflexivity.
  - apply (proj2 (store_unavailable
                    (with_connect healthy (Fails (OtherError "MemoryError")))
                    (DELETE_profile 7) (mkUser "grace@plymouth.ac.uk" true))
             (OtherError "MemoryError")); reflexivity.
Defined.

(** ** What a handler returns *)

(** X4: a handler returns a value only when the connection, the cursor, the
    stored procedure and both closes completed, and the value is never
    [None]: the [except] clauses that fall off the end always raise
    first. *)
Theorem success_means_completed
    (w : world) (rq : request) (cu : current_user) (v : pyvalue) :
  fst (handler w rq cu) = Returns v ->
  v <> PyNone
  /\ w_connect w = Completes tt /\ w_cursor w = Completes tt
  /\ w_cursor_close w = Completes tt /\ w_conn_close w = Completes tt
  /\ exists proc params,
       w_execute w proc params = Completes tt
       /\ In (Ev_execute proc params) (snd (handler w rq cu)).
Proof.
  destruct rq; unfold_handlers; split_outcomes; classify_away; simpl;
    try discriminate; intros [= <-].
  all: repeat split; try reflexivity; try discriminate.
  all: do 2 eexists; split; [eassumption | simpl; tauto].
Qed.

Lemma success_means_completed_witness :
  Message "User Preferences created successfully" <> PyNone
  /\ w_conn_close healthy = Completes tt.
Proof.
  destruct (success_means_completed healthy
              (POST_profile_activity 7 (Activity_Request.mk 3))
              (mkUser "grace@plymouth.ac.uk" true)
              (Message "User Preferences created successfully") eq_refl)
    as (H1 & _ & _ & _ & H2 & _).
  split; [exact H1 | exact H2].
Defined.

(** X5: an exception of the [finally] block replaces whatever the handler
    was about to do, a returned value and a classified error alike: when
    [cursor.close()] raises, the handler raises that exception and
    [conn.close()] is not called; when [cursor.close()] completes and
    [conn.close()] raises, the handler raises that exception. *)
Theorem close_failure_overrides
    (w : world) (rq : request) (cu : current_user) (e : lib_exn) :
  w_connect w = Completes tt -> w_cursor w = Completes tt ->
  (w_cursor_close w = Fails e ->
   fst (handler w rq cu) = Raises (Lib e)
   /\ calls_of Ev_conn_close (snd (handler w rq cu)) = 0)
  /\ (w_cursor_close w = Completes tt -> w_conn_close w = Fails e ->
      fst (handler w rq cu) = Raises (Lib e)).
Proof.
  intros Hc Hk. split.
  - intros Hcc. destruct rq; unfold_handlers; rewrite Hc, Hk, Hcc; simpl.
    all: split_outcomes; classify_away; simpl; split; reflexivity.
  - intros Hcc Hnc. destruct rq; unfold_handlers; rewrite Hc, Hk, Hcc, Hnc; simpl.
    all: split_outcomes; classify_away; simpl; reflexivity.
Qed.

Lemma close_failure_overrides_witness :
  fst (handler (with_conn_close healthy (Fails (PyodbcError "08S01")))
         (POST_profiles ada) (mkUser "grace@plymouth.ac.uk" true))
  = Raises (Lib (PyodbcError "08S01"))
  /\ In (Ev_execute "CW2.Create_User"
           [SqlStr "ada"; SqlStr "ada@x.com"; SqlNull; SqlNull; SqlNull])
        (snd (handler (with_conn_close healthy (Fails (PyodbcError "08S01")))
                (POST_profiles ada) (mkUser "grace@plymouth.ac.uk" true))).
Proof.
  split.
  - apply (proj2 (close_failure_overrides
                    (with_conn_close healthy (Fails (PyodbcError "08S01")))
                    (POST_profiles ada) (mkUser "grace@plymouth.ac.uk" true)
                    (PyodbcError "08S01") eq_refl eq_refl)); reflexivity.
  - simpl. tauto.
Defined.

(** ** Rollback *)

(** X6: [conn.rollback()] is called by [create_user] alone, and only after
    its stored procedure raised a [pyodbc.Error]; no handler calls it more
    than once. *)
Theorem rollback_only_in_create_user (w : world) (rq : request) (cu : current_user) :
  calls_of Ev_rollback (snd (handler w rq cu)) <= 1
  /\ (In Ev_rollback (snd (handler w rq cu)) ->
      exists user text,
        rq = POST_profiles user
        /\ w_execute w "CW2.Create_User"
             [ SqlStr (UserCreate.username user);
               sql_opt_str (UserCreate.email user);
               sql_opt_str (UserCreate.phone_number user);
               sql_opt_str (UserCreate.location user);
               sql_opt_date (UserCreate.date_of_birth user) ]
           = Fails (PyodbcError text)).
Proof.
  destruct rq; unfold_handlers; split_outcomes; classify_away; simpl.
  all: split; [unfold calls_of; simpl; lia | intros H].
  all: try (do 2 eexists; split; [reflexivity | eassumption]).
  all: repeat (destruct H as [H|H]; [discriminate H|]); destruct H.
Qed.

Lemma rollback_only_in_create_user_witness :
  exists user text,
    POST_profiles ada = POST_profiles user
    /\ w_execute (with_execute healthy (Fails (PyodbcError "username already exists")))
         "CW2.Create_User"
         [ SqlStr (UserCreate.username user);
           sql_opt_str (UserCreate.email user);
           sql_opt_str (UserCreate.phone_number user);
           sql_opt_str (UserCreate.location user);
           sql_opt_date (UserCreate.date_of_birth user) ]
       = Fails (PyodbcError text).
Proof.
  apply (proj2 (rollback_only_in_create_user
                  (with_execute healthy (Fails (PyodbcError "username already exists")))
                  (POST_profiles ada) (mkUser "grace@plymouth.ac.uk" true))).
  simpl. tauto.
Defined.

(** X7: in [create_user], when [conn.rollback()] itself raises, the backend
    error is not classified: the handler raises the exception of the
    rollback, after closing cursor and connection, and the caller gets a
    plain internal error instead of the 4xx of the table. *)
Theorem rollback_failure_hides_classification
    (w : world) (user : UserCreate.t) (cu : current_user)
    (text : string) (e : lib_exn) :
  w_connect w = Completes tt -> w_cursor w = Completes tt ->
  w_execute w "CW2.Create_User"
    [ SqlStr (UserCreate.username user);
      sql_opt_str (UserCreate.email user);
      sql_opt_str (UserCreate.phone_number user);
      sql_opt_str (UserCreate.location user);
      sql_opt_date (UserCreate.date_of_birth user) ]
  = Fails (PyodbcError text) ->
  w_rollback w = Fails e ->
  w_cursor_close w = Completes tt -> w_conn_close w = Completes tt ->
  fst (create_user w user cu) = Raises (Lib e)
  /\ respond (fst (create_user w user cu)) = ServerError500
  /\ calls_of Ev_conn_close (snd (create_user w user cu)) = 1.
Proof.
  intros Hc Hk He Hr Hcc Hnc.
  unfold_handlers. rewrite Hc, Hk, He, Hr, Hcc, Hnc. simpl.
  repeat split; reflexivity.
Qed.

Lemma rollback_failure_hides_classification_witness :
  respond (fst (create_user
                  (with_rollback
                     (with_execute healthy (Fails (PyodbcError "Email already exists")))
                     (Fails (PyodbcError "08S01")))
                  ada (mkUser "grace@plymouth.ac.uk" true)))
  = ServerError500.
Proof.
  apply (rollback_failure_hides_classification
           (with_rollback
              (with_execute healthy (Fails (PyodbcError "Email already exists")))
              (Fails (PyodbcError "08S01")))
           ada (mkUser "grace@plymouth.ac.uk" true)
           "Email already exists" (PyodbcError "08S01"));
    reflexivity.
Defined.

(** ** Classification at the routes *)

(** What [validation_checking] raises is one of the details written in the
    module, the shadowed 409 row excepted. *)
Lemma validation_checking_live (msg : string) :
  exists code text,
    validation_checking msg = raise (http code text)
    /\ In (code, text) module_details.
Proof.
  unfold validation_checking, module_details.
  destruct (Str.contains "old activity not found for this user" msg) eqn:Hlong.
  - rewrite (old_activity_substring msg Hlong).
    destruct (Str.contains "user not found" msg);
      [|destruct (Str.contains "new activity not found" msg)];
      eexists; eexists; (split; [reflexivity | simpl; tauto]).
  - repeat match goal with
           | |- context [if Str.contains ?p msg then _ else _] =>
               destruct (Str.contains p msg)
           end;
      eexists; eexists; (split; [reflexivity | simpl; tauto]).
Qed.

Ltac classify_live :=
  repeat match goal with
         | |- context [validation_checking ?m] =>
             let c := fresh "code" in
             let d := fresh "text" in
             let E := fresh "E" in
             let I := fresh "I" in
             destruct (validation_checking_live m) as (c & d & E & I);
             rewrite E; unfold raise
         end.

Lemma handler_details (w : world) (rq : request) (cu : current_user)
    (code : nat) (text : string) :
  respond (fst (handler w rq cu)) = ErrorDetail code text ->
  In (code, text) module_details.
Proof.
  destruct rq; unfold_handlers; split_outcomes; classify_live; simpl;
    try discriminate; intros [= <- <-]; try assumption; simpl; tauto.
Qed.

Lemma verify_details (w : world) (credentials : HTTPBasicCredentials) (e : HTTPException) :
  fst (verify_credentials w credentials) = Raises (Http e) ->
  In (status_code e, detail e) module_details.
Proof.
  unfold verify_credentials, call, bind, try_except, local, ret, raise.
  destruct (w_post w (username credentials) (password credentials)) as [r|x]; simpl.
  - destruct (Nat.eqb (Response.status_code r) 200).
    + destruct (Response.json r) as [v|x]; simpl.
      * destruct (verified v); simpl; [discriminate|]. intros [= <-]. simpl. tauto.
      * destruct x; simpl; try discriminate. intros [= <-]. simpl. tauto.
    + simpl. intros [= <-]. simpl. tauto.
  - destruct x; simpl; try discriminate. intros [= <-]. simpl. tauto.
Qed.

(** X8: on the four routes whose [except] clause calls
    [validation_checking], when the stored procedure raises a
    [pyodbc.Error] and rollback and closes complete: if [print(msg)]
    completes (the three routes that print; [create_user] does not), the
    handler raises exactly what the classifier raises for the lowercased
    message, a row of the status/message table; if [print(msg)] raises, the
    message is not classified and the exception of [print] leaves the
    handler, answered as a plain internal error. *)
Theorem mutating_routes_classify
    (w : world) (rq : request) (cu : current_user) (text : string) :
  uses_validation_checking rq = true ->
  w_connect w = Completes tt -> w_cursor w = Completes tt ->
  (forall proc params, w_execute w proc params = Fails (PyodbcError text)) ->
  w_rollback w = Completes tt ->
  w_cursor_close w = Completes tt -> w_conn_close w = Completes tt ->
  (w_print w (Str.lower text) = Completes tt ->
   exists code detail,
     validation_checking (Str.lower text) = raise (http code detail)
     /\ fst (handler w rq cu) = Raises (http code detail)
     /\ respond (fst (handler w rq cu)) = ErrorDetail code detail
     /\ In (code, detail) error_table)
  /\ (forall e,
      w_print w (Str.lower text) = Fails e ->
      (forall user, rq <> POST_profiles user) ->
      fst (handler w rq cu) = Raises (Lib e)
      /\ respond (fst (handler w rq cu)) = ServerError500
      /\ In (Ev_print (Str.lower text)) (snd (handler w rq cu))).
Proof.
  intros Hrq Hc Hk He Hr Hcc Hnc. split.
  - intros Hp.
    destruct (validation_checking_raises (Str.lower text)) as (c & d & E & HIn).
    destruct rq; try discriminate Hrq; unfold_handlers;
      rewrite Hc, Hk, He, ?Hr, Hcc, Hnc; simpl; rewrite ?Hp; simpl; rewrite E; simpl;
      exists c, d; repeat split; assumption || reflexivity.
  - intros e Hp Hrq'.
    destruct rq; try discriminate Hrq; [now destruct (Hrq' user) | | |];
      unfold_handlers; rewrite Hc, Hk, He, Hcc, Hnc; simpl; rewrite Hp; simpl;
      (split; [reflexivity | split; [reflexivity | simpl; tauto]]).
Qed.

Lemma mutating_routes_classify_witness :
  respond (fst (handler (with_execute healthy
                           (Fails (PyodbcError "[23000] Email already exists. (50000)")))
                  (PUT_profile 7 (UpdateUser.mk None (Some "ada@x.com") None None None))
                  (mkUser "grace@plymouth.ac.uk" true)))
  = ErrorDetail 409 "Email already exists."
  /\ respond (fst (handler (with_print
                              (with_execute healthy
                                 (Fails (PyodbcError "[23000] Email already exists. (50000)")))
                              (Fails (OtherError "BrokenPipeError")))
                     (PUT_profile 7 (UpdateUser.mk None (Some "ada@x.com") None None None))
                     (mkUser "grace@plymouth.ac.uk" true)))
     = ServerError500.
Proof.
  split.
  - destruct (mutating_routes_classify
                (with_execute healthy
                   (Fails (PyodbcError "[23000] Email already exists. (50000)")))
                (PUT_profile 7 (UpdateUser.mk None (Some "ada@x.com") None None None))
                (mkUser "grace@plymouth.ac.uk" true)
                "[23000] Email already exists. (50000)"
                eq_refl eq_refl eq_refl (fun _ _ => eq_refl) eq_refl eq_refl eq_refl)
      as (H & _).
    destruct (H eq_refl) as (c & d & Hv & _ & Hr & _).
    rewrite Hr. injection Hv as <- <-. reflexivity.
  - destruct (mutating_routes_classify
                (with_print
                   (with_execute healthy
                      (Fails (PyodbcError "[23000] Email already exists. (50000)")))
                   (Fails (OtherError "BrokenPipeError")))
                (PUT_profile 7 (UpdateUser.mk None (Some "ada@x.com") None None None))
                (mkUser "grace@plymouth.ac.uk" true)
                "[23000] Email already exists. (50000)"
                eq_refl eq_refl eq_refl (fun _ _ => eq_refl) eq_refl eq_refl eq_refl)
      as (_ & H).
    apply (H (OtherError "BrokenPipeError") eq_refl).
    intros user. discriminate.
Defined.

(** X9: the handlers classify [pyodbc.Error] only. When the stored
    procedure raises any other exception, no route classifies it and no
    route rolls back: after the closes the exception leaves the handler and
    the caller gets a plain internal error. *)
Theorem unexpected_error_unclassified
    (w : world) (rq : request) (cu : current_user) (e : lib_exn) :
  is_pyodbc_Error (Lib e) = None ->
  w_connect w = Completes tt -> w_cursor w = Completes tt ->
  (forall proc params, w_execute w proc params = Fails e) ->
  w_cursor_close w = Completes tt -> w_conn_close w = Completes tt ->
  fst (handler w rq cu) = Raises (Lib e)
  /\ respond (fst (handler w rq cu)) = ServerError500
  /\ calls_of Ev_rollback (snd (handler w rq cu)) = 0
  /\ calls_of Ev_conn_close (snd (handler w rq cu)) = 1.
Proof.
  intros Hp Hc Hk He Hcc Hnc.
  destruct rq; unfold_handlers; rewrite Hc, Hk, He, Hcc, Hnc;
    destruct e; simpl in *; try discriminate Hp; repeat split; reflexivity.
Qed.

Lemma unexpected_error_unclassified_witness :
  fst (handler (with_execute healthy (Fails (OtherError "user not found")))
         (GET_profile 7) (mkUser "grace@plymouth.ac.uk" true))
  = Raises (Lib (OtherError "user not found")).
Proof.
  apply (unexpected_error_unclassified
           (with_execute healthy (Fails (OtherError "user not found")))
           (GET_profile 7) (mkUser "grace@plymouth.ac.uk" true)
           (OtherError "user not found") eq_refl eq_refl eq_refl
           (fun _ _ => eq_refl) eq_refl eq_refl).
Defined.

(** X10: for a request that carries Basic credentials and a valid body
    (one that reaches [verify_credentials]), whatever the authentication
    endpoint and the backend answer, a detail raised by the verifier or by a
    handler is one of the sixteen fixed texts written in the module, with its
    fixed status. No text of a backend message or of an authentication
    response is put in a detail, and 409 "Old activity not found for this
    user." is never raised. *)
Theorem only_fixed_details
    (w : world) (credentials : HTTPBasicCredentials) (rq : request)
    (code : nat) (text : string) :
  respond (fst (serve w credentials rq)) = ErrorDetail code text ->
  In (code, text) module_details
  /\ pair_is (Some (code, text)) 409 "Old activity not found for this user." = false.
Proof.
  intros H.
  assert (HIn : In (code, text) module_details).
  { destruct (fst (verify_credentials w credentials)) as [cu|e] eqn:V.
    - rewrite (serve_authenticated w credentials rq cu V) in H. simpl in H.
      exact (handler_details w rq cu code text H).
    - rewrite (serve_unauthenticated w credentials rq e V) in H. simpl in H.
      destruct e as [x|x]; [discriminate|]. injection H as <- <-.
      exact (verify_details w credentials x V). }
  split; [exact HIn|].
  unfold module_details in HIn. simpl in HIn.
  repeat (destruct HIn as [HIn|HIn]; [injection HIn as <- <-; reflexivity|]).
  destruct HIn.
Qed.

Lemma only_fixed_details_witness :
  In (404, "Old Activity not found for this user") module_details.
Proof.
  apply (only_fixed_details
           (with_execute healthy
              (Fails (PyodbcError "Old activity not found for this user")))
           grace (POST_profile 7 (UpdateUserPreferences.mk (Some 2%Z) (Some 9%Z)))
           404 "Old Activity not found for this user").
  reflexivity.
Defined.

(** ** The calls of one request *)

Lemma handler_calls (w : world) (rq : request) (cu : current_user) :
  forallb (fun ev => negb (is_post ev)) (snd (handler w rq cu)) = true
  /\ calls_of Ev_connect (snd (handler w rq cu)) = 1
  /\ invocations (snd (handler w rq cu)) <= 1
  /\ calls_of Ev_fetchone (snd (handler w rq cu)) <= 1.
Proof.
  destruct rq; unfold_handlers; split_outcomes; classify_away; simpl;
    unfold calls_of, invocations; simpl; repeat split; lia.
Qed.

(** X11: a request that carries Basic credentials and a valid body (one that
    reaches [verify_credentials]) makes exactly one call to the
    authentication endpoint, with the submitted credentials, and makes it
    first; after it there is no second authentication call, at most one
    connection, at most one stored-procedure invocation and at most one
    fetch. Nothing is retried. *)
Theorem one_call_each
    (w : world) (credentials : HTTPBasicCredentials) (rq : request) :
  exists rest,
    snd (serve w credentials rq)
    = Ev_requests_post (username credentials) (password credentials) :: rest
    /\ forallb (fun ev => negb (is_post ev)) rest = true
    /\ calls_of Ev_connect rest <= 1
    /\ invocations rest <= 1
    /\ calls_of Ev_fetchone rest <= 1.
Proof.
  destruct (fst (verify_credentials w credentials)) as [cu|e] eqn:V.
  - rewrite (serve_authenticated w credentials rq cu V). simpl.
    exists (snd (handler w rq cu)).
    destruct (handler_calls w rq cu) as (H1 & H2 & H3 & H4).
    repeat split; try assumption. lia.
  - rewrite (serve_unauthenticated w credentials rq e V). simpl.
    exists []. unfold calls_of, invocations. simpl. repeat split; lia.
Qed.

(** X12: the verified principal plays no part in what a handler does: two
    callers who both pass verification get, for the same request, the same
    outcome after the same database calls. No route compares the principal
    with the profile it acts on. *)
Theorem principal_plays_no_part
    (w : world) (c c' : HTTPBasicCredentials) (rq : request) (u u' : current_user) :
  fst (verify_credentials w c) = Returns u ->
  fst (verify_credentials w c') = Returns u' ->
  fst (serve w c rq) = fst (serve w c' rq)
  /\ filter is_backend_call (snd (serve w c rq))
     = filter is_backend_call (snd (serve w c' rq)).
Proof.
  intros V V'.
  rewrite (serve_authenticated w c rq u V), (serve_authenticated w c' rq u' V').
  assert (E : handler w rq u = handler w rq u') by (destruct rq; reflexivity).
  simpl. now rewrite E.
Qed.

Lemma principal_plays_no_part_witness :
  fst (serve healthy grace (DELETE_profile 7))
  = fst (serve healthy tim (DELETE_profile 7)).
Proof.
  apply (principal_plays_no_part healthy grace tim (DELETE_profile 7)
           (mkUser "grace@plymouth.ac.uk" true) (mkUser "tim@plymouth.ac.uk" true)
           eq_refl eq_refl).
Defined.

(** ** The classifier on text that was not lowercased *)

Lemma startswith_head (c : ascii) (p s : string) :
  Str.startswith (String c p) s = true -> In c (list_ascii_of_string s).
Proof.
  destruct s as [|b s]; simpl; [discriminate|].
  rewrite andb_true_iff, Ascii.eqb_eq. intros [-> _]. now left.
Qed.

Lemma contains_head (c : ascii) (p s : string) :
  Str.contains (String c p) s = true -> In c (list_ascii_of_string s).
Proof.
  induction s as [|b s IH].
  - intros H. discriminate H.
  - change (Str.contains (String c p) (String b s))
      with (Str.startswith (String c p) (String b s) || Str.contains (String c p) s).
    rewrite orb_true_iff. intros [H|H].
    + exact (startswith_head c p _ H).
    + right. exact (IH H).
Qed.

Lemma no_lower_letter_contains (c : ascii) (p s : string) :
  is_lower_letter c = true -> no_lower_letter s = true ->
  Str.contains (String c p) s = false.
Proof.
  intros Hc Hs. destruct (Str.contains (String c p) s) eqn:E; [|reflexivity].
  apply contains_head in E. unfold no_lower_letter in Hs.
  rewrite forallb_forall in Hs. specialize (Hs c E).
  rewrite Hc in Hs. discriminate.
Qed.

(** X13: [validation_checking] itself is case-sensitive: every substring it
    looks for starts with a lowercase letter, so a message without any
    letter [a]..[z] (an upper-case message, for one) matches none of them
    and is answered 500 "Internal server error". The match on "User Not
    Found" depends on the caller lowercasing the text first. *)
Theorem validation_checking_needs_lowercase (msg : string) :
  no_lower_letter msg = true ->
  validation_checking msg = raise (http 500 "Internal server error")
  /\ forallb (fun p => negb (Str.contains p msg)) classifier_substrings = true.
Proof.
  intros H.
  assert (G : forallb (fun p => negb (Str.contains p msg)) classifier_substrings = true).
  { unfold classifier_substrings. cbn [forallb].
    rewrite !no_lower_letter_contains by (reflexivity || assumption). reflexivity. }
  split; [|exact G].
  unfold classifier_substrings in G. cbn [forallb] in G.
  rewrite !andb_true_iff, !negb_true_iff in G.
  unfold validation_checking.
  destruct G as (-> & -> & -> & -> & -> & -> & -> & -> & -> & -> & _).
  reflexivity.
Qed.

Lemma validation_checking_needs_lowercase_witness :
  validation_checking "USER NOT FOUND" = raise (http 500 "Internal server error")
  /\ validation_checking (Str.lower "USER NOT FOUND") = raise (http 404 "User not found").
Proof.
  split.
  - apply (validation_checking_needs_lowercase "USER NOT FOUND"). reflexivity.
  - reflexivity.
Defined.

(** ** Remaining paths *)

(** X14: a 200 answer of the authentication endpoint whose body cannot be
    decoded is never treated as a rejection of the credentials: when the
    decoding error is a [RequestException] the verifier raises 503
    "Authentication service unavailable", and any other decoding error
    leaves the verifier as it is; in both cases no 401 is raised. *)
Theorem undecodable_body_is_not_rejection
    (w : world) (credentials : HTTPBasicCredentials) (e : lib_exn) :
  w_post w (username credentials) (password credentials)
  = Completes (Response.mk 200 (Fails e)) ->
  (forall cls, e = RequestException cls ->
               fst (verify_credentials w credentials) = Raises (Http auth_service_unavailable))
  /\ (is_RequestException (Lib e) = None ->
      fst (verify_credentials w credentials) = Raises (Lib e))
  /\ pair_is (raised_pair (verify_credentials w credentials)) 401 "Invalid credentials" = false
  /\ pair_is (raised_pair (verify_credentials w credentials)) 401 "Authentication failed" = false.
Proof.
  intros H. unfold raised_pair. rewrite (verify_200_unparseable w credentials e H).
  repeat split.
  - intros cls ->. reflexivity.
  - intros He. destruct e; simpl in *; try reflexivity; discriminate.
  - destruct e; reflexivity.
  - destruct e; reflexivity.
Qed.

Lemma undecodable_body_is_not_rejection_witness :
  fst (verify_credentials
         (with_post healthy
            (Completes (Response.mk 200 (Fails (RequestException "JSONDecodeError")))))
         tim)
  = Raises (Http auth_service_unavailable).
Proof.
  destruct (undecodable_body_is_not_rejection
              (with_post healthy
                 (Completes (Response.mk 200 (Fails (RequestException "JSONDecodeError")))))
              tim (RequestException "JSONDecodeError") eq_refl) as (H & _).
  exact (H "JSONDecodeError" eq_refl).
Defined.

(** X15: when the connection, the cursor, the stored procedure and both
    closes complete, each of the five writing routes returns its own fixed
    message after exactly five calls (connect, cursor, one procedure, the two
    closes); nothing is fetched and nothing is rolled back. *)
Theorem writes_succeed (w : world) (cu : current_user) :
  w_connect w = Completes tt -> w_cursor w = Completes tt ->
  (forall proc params, w_execute w proc params = Completes tt) ->
  w_cursor_close w = Completes tt -> w_conn_close w = Completes tt ->
  (forall user, fst (create_user w user cu) = Returns (Message "User created successfully"))
  /\ (forall user_id user,
         fst (update_user w user_id user cu) = Returns (Message "User updated successfully"))
  /\ (forall user_id body,
         fst (create_user_preferences w user_id body cu)
         = Returns (Message "User Preferences created successfully"))
  /\ (forall user_id user,
         fst (update_user_preferences w user_id user cu)
         = Returns (Message "User Preferences updated successfully"))
  /\ (forall user_id,
         fst (delete_user w user_id cu) = Returns (Message "User deleted successfully"))
  /\ (forall rq, (forall user_id, rq <> GET_profile user_id) ->
      exists proc params,
        snd (handler w rq cu)
        = [Ev_connect; Ev_cursor; Ev_execute proc params;
           Ev_cursor_close; Ev_conn_close]).
Proof.
  intros Hc Hk He Hcc Hnc. repeat split; intros.
  1-5: unfold_handlers; rewrite Hc, Hk, He, Hcc, Hnc; reflexivity.
  destruct rq; [|now destruct (H user_id)| | | |];
    unfold_handlers; rewrite Hc, Hk, He, Hcc, Hnc; simpl; do 2 eexists; reflexivity.
Qed.

Lemma writes_succeed_witness :
  respond (fst (create_user healthy ada (mkUser "grace@plymouth.ac.uk" true)))
  = Ok200 (Message "User created successfully")
  /\ exists proc params,
       snd (handler healthy (DELETE_profile 7) (mkUser "grace@plymouth.ac.uk" true))
       = [Ev_connect; Ev_cursor; Ev_execute proc params; Ev_cursor_close; Ev_conn_close].
Proof.
  destruct (writes_succeed healthy (mkUser "grace@plymouth.ac.uk" true)
              eq_refl eq_refl (fun _ _ => eq_refl) eq_refl eq_refl)
    as (H1 & _ & _ & _ & _ & H6).
  split.
  - now rewrite H1.
  - apply H6. intros user_id. discriminate.
Defined.
